(** * Outcome resolution, rating fallback, data gate, form and insights
    of the team-agnostic match predictor (ml-service/app).

    Python floats are modelled as exact rationals [Q] in the neural-network
    path and as reals [R] in the rating fallback, whose logistic term uses
    a real power of 10. *)

From Stdlib Require Import QArith Qabs Qround Lqa String List ZArith Lia Bool.
From Stdlib Require Import Reals Lra.

(** [lra] over the rationals and over the reals. *)
Ltac qlra := Lqa.lra.
Ltac rlra := Lra.lra.
Import ListNotations.
Open Scope string_scope.

(* ------------------------------------------------------------------ *)
(** ** Python numeric built-ins on rationals *)

Module Py.
Open Scope Q_scope.

(** [a < b] on floats. *)
Definition ltb (a b : Q) : bool := negb (Qle_bool b a).

(** [max(a, b)]: keeps the first argument unless the second is larger. *)
Definition max2 (a b : Q) : Q := if ltb a b then b else a.

(** [min(a, b)]: keeps the first argument unless the second is smaller. *)
Definition min2 (a b : Q) : Q := if ltb b a then b else a.

(** [max(a, b, c)]. *)
Definition max3 (a b c : Q) : Q := max2 (max2 a b) c.

(** [round(x, n)]: round half to even at [n] decimals. *)
Definition round (x : Q) (n : nat) : Q :=
  let s := inject_Z (10 ^ Z.of_nat n) in
  let y := x * s in
  let f := Qfloor y in
  let r := y - inject_Z f in
  let k := if ltb r (1#2) then f
           else if ltb (1#2) r then (f + 1)%Z
           else if Z.even f then f else (f + 1)%Z in
  inject_Z k / s.

End Py.

(* ------------------------------------------------------------------ *)
(** ** [TeamScorePredictor.predict_match] (models/team_score_predictor.py)
    and the probability block of [TeamAgnosticPredictor.predict]
    (predictor_v2.py). *)

Module ScorePredictor.
Open Scope Q_scope.

Record probs := mk_probs {
  team_a_prob : Q;
  draw_prob : Q;
  team_b_prob : Q
}.

(** Lines 236-248 of team_score_predictor.py; lines 87-99 of
    predictor_v2.py compute the same three values from the rounded goals. *)
Definition win_probs (goal_diff : Q) : probs :=
  if Py.ltb 1 goal_diff then
    let a := Py.min2 (85#100) ((1#2) + goal_diff * (15#100)) in
    let b := Py.max2 (5#100) ((1#2) - goal_diff * (20#100)) in
    mk_probs a (1 - a - b) b
  else if Py.ltb goal_diff (-1) then
    let b := Py.min2 (85#100) ((1#2) + Qabs goal_diff * (15#100)) in
    let a := Py.max2 (5#100) ((1#2) - Qabs goal_diff * (20#100)) in
    mk_probs a (1 - a - b) b
  else
    let a := (1#2) + goal_diff * (1#10) in
    let b := (1#2) - goal_diff * (1#10) in
    mk_probs a (Py.max2 (2#10) (1 - a - b)) b.

(** [_calculate_confidence]. *)
Definition calculate_confidence (winning_goals losing_goals : Q) : Q :=
  let goal_diff := winning_goals - losing_goals in
  (1#2) + Py.min2 (45#100) (goal_diff * (15#100)).

(** Which arm of the if/elif chain of lines 256-276 is taken. *)
Inductive branch := NearTie | AWin | BWin | NaturalDraw.

(** Local state after the if/elif chain. *)
Record resolution := mk_resolution {
  res_branch : branch;
  outcome : string;
  winner : string;
  res_probs : probs;
  confidence : Q
}.

(** Lines 250-276. Note the sequential updates of lines 261-263: the third
    assignment reads the [team_a_prob] written by the second. *)
Definition resolve (team_a_goals team_b_goals : Q)
    (team_a_name team_b_name : string) : resolution :=
  let goal_diff := team_a_goals - team_b_goals in
  let p := win_probs goal_diff in
  let team_a_prob := team_a_prob p in
  let team_b_prob := team_b_prob p in
  let draw_prob := draw_prob p in
  let max_prob := Py.max3 team_a_prob team_b_prob draw_prob in
  let prob_diff_threshold := 2#100 in
  if Py.ltb (Qabs (team_a_prob - team_b_prob)) prob_diff_threshold
     && (Qeq_bool max_prob team_a_prob || Qeq_bool max_prob team_b_prob) then
    let draw_prob' := 1 - (team_a_prob + team_b_prob) * (15#100) in
    let team_a_prob' := (team_a_prob + team_b_prob) * (425#1000) in
    let team_b_prob' := (team_a_prob' + team_b_prob) * (425#1000) in
    mk_resolution NearTie "Draw" "Draw"
      (mk_probs team_a_prob' draw_prob' team_b_prob')
      (Py.min2 (95#100) ((6#10) + draw_prob' * (3#10)))
  else if Qeq_bool max_prob team_a_prob then
    mk_resolution AWin (team_a_name ++ " Win") team_a_name p
      (calculate_confidence team_a_goals team_b_goals)
  else if Qeq_bool max_prob team_b_prob then
    mk_resolution BWin (team_b_name ++ " Win") team_b_name p
      (calculate_confidence team_b_goals team_a_goals)
  else
    mk_resolution NaturalDraw "Draw" "Draw" p ((1#2) + ((1#2) - Qabs goal_diff)).

(** The returned dictionary of [predict_match]. *)
Record match_result := mk_match_result {
  predicted_outcome : string;
  predicted_winner : string;
  team_a_name : string;
  team_b_name : string;
  team_a_predicted_goals : Q;
  team_b_predicted_goals : Q;
  confidence_score : Q;
  goal_difference : Q
}.

(** Clamping of lines 230-231: [max(0, goals)]. *)
Definition clamp_goals (raw : Q) : Q := Py.max2 0 raw.

(** The probabilities computed inside [predict_match] before the if/elif
    chain, from the model outputs [raw_a] and [raw_b]. *)
Definition pre_probs (raw_a raw_b : Q) : probs :=
  win_probs (clamp_goals raw_a - clamp_goals raw_b).

(** The resolution reached by [predict_match] on the model outputs. *)
Definition resolve_raw (raw_a raw_b : Q) (na nb : string) : resolution :=
  resolve (clamp_goals raw_a) (clamp_goals raw_b) na nb.

Definition predict_match (raw_a raw_b : Q) (na nb : string) : match_result :=
  let ga := clamp_goals raw_a in
  let gb := clamp_goals raw_b in
  let r := resolve ga gb na nb in
  mk_match_result (outcome r) (winner r) na nb
    (Py.round ga 1) (Py.round gb 1)
    (Py.round (confidence r) 2) (Py.round (ga - gb) 1).

(** [TeamAgnosticPredictor.predict], lines 84-111: the three probabilities
    returned next to the neural-network result, before and after the
    2-decimal rounding of the response. *)
Definition v2_probs (raw_a raw_b : Q) (na nb : string) : probs :=
  let result := predict_match raw_a raw_b na nb in
  win_probs (team_a_predicted_goals result - team_b_predicted_goals result).

Definition v2_response_probs (raw_a raw_b : Q) (na nb : string) : probs :=
  let p := v2_probs raw_a raw_b na nb in
  mk_probs (Py.round (team_a_prob p) 2) (Py.round (draw_prob p) 2)
    (Py.round (team_b_prob p) 2).

Definition prob_sum (p : probs) : Q := team_a_prob p + draw_prob p + team_b_prob p.

End ScorePredictor.

(* ------------------------------------------------------------------ *)
(** ** [TeamAgnosticPredictor._predict_international_match]
    (predictor_v2.py, lines 146-242), the rating fallback. *)

Module EloFallback.
Open Scope R_scope.

(** The rating table of lines 150-160. *)
Definition elo_ratings : list (string * Z) := [
  ("Brazil", 2050%Z); ("Argentina", 2040%Z); ("France", 2030%Z);
  ("England", 2020%Z); ("Spain", 2010%Z);
  ("Germany", 1990%Z); ("Portugal", 1980%Z); ("Netherlands", 1970%Z);
  ("Belgium", 1960%Z); ("Italy", 1950%Z);
  ("Croatia", 1900%Z); ("Uruguay", 1890%Z); ("Colombia", 1880%Z);
  ("Mexico", 1870%Z); ("Switzerland", 1860%Z);
  ("USA", 1850%Z); ("Senegal", 1840%Z); ("Japan", 1830%Z);
  ("Morocco", 1820%Z); ("Korea Republic", 1810%Z);
  ("Denmark", 1800%Z); ("Austria", 1790%Z); ("Ecuador", 1780%Z);
  ("Tunisia", 1770%Z); ("Poland", 1760%Z);
  ("Australia", 1730%Z); ("Canada", 1720%Z); ("IR Iran", 1710%Z);
  ("Saudi Arabia", 1700%Z); ("Egypt", 1690%Z);
  ("Norway", 1680%Z); ("Scotland", 1670%Z); ("Ghana", 1660%Z);
  ("Côte d'Ivoire", 1650%Z); ("Algeria", 1640%Z);
  ("South Africa", 1630%Z); ("Qatar", 1620%Z); ("Panama", 1610%Z);
  ("Paraguay", 1600%Z); ("Uzbekistan", 1590%Z);
  ("Jordan", 1560%Z); ("Cabo Verde", 1550%Z); ("New Zealand", 1540%Z);
  ("Curaçao", 1530%Z); ("Haiti", 1520%Z)
].

(** [name in elo_ratings]. *)
Definition mem (d : list (string * Z)) (name : string) : bool :=
  existsb (fun kv => String.eqb (fst kv) name) d.

(** [dict.get(name, default)]. *)
Fixpoint get (d : list (string * Z)) (name : string) (default : Z) : Z :=
  match d with
  | [] => default
  | (k, v) :: d' => if String.eqb k name then v else get d' name default
  end.

(** [max(a, b)] and [min(a, b)] on floats, as on rationals. *)
Definition max2 (a b : R) : R := if Rlt_dec a b then b else a.
Definition min2 (a b : R) : R := if Rlt_dec b a then b else a.
Definition max3 (a b c : R) : R := max2 (max2 a b) c.

(** Lines 176-177: rating to expected goals. *)
Definition elo_to_xg (elo : Z) : R := 8/10 + IZR (elo - 1400) / 300.

(** The insight texts of lines 206-221, by the values they interpolate. *)
Inductive insight :=
  | SuperiorQuality (stronger : string) (elo_gap : R)
  | QualityEdge (stronger : string) (elo_gap : R)
  | EvenlyMatched (elo_gap : R)
  | MoreChances (team : string) (xg_for xg_against : R)
  | Scoreline (home_xg away_xg : R).

Record intl_result := mk_intl_result {
  predicted_outcome : string;
  predicted_winner : string;
  home_xg : R;
  away_xg : R;
  (** [confidence] before the 2-decimal rounding of the response. *)
  confidence : R;
  home_prob : R;
  draw_prob : R;
  away_prob : R;
  insights : list insight;
  home_elo : Z;
  away_elo : Z;
  elo_difference : Z
}.

Definition predict_international_match (home_team_name away_team_name : string)
    : intl_result :=
  let home_elo := get elo_ratings home_team_name 1700 in
  let away_elo := get elo_ratings away_team_name 1700 in
  let home_advantage := 50%Z in
  let adjusted_home_elo := (home_elo + home_advantage)%Z in
  let elo_diff := (adjusted_home_elo - away_elo)%Z in
  let home_win_prob := 1 / (1 + Rpower 10 (IZR (- elo_diff) / 400)) in
  let away_win_prob := 1 - home_win_prob in
  let home_xg := elo_to_xg adjusted_home_elo in
  let away_xg := elo_to_xg away_elo in
  let draw_factor := max2 0 (1 - IZR (Z.abs elo_diff) / 200) in
  let base_draw_prob := 25/100 * draw_factor + 15/100 in
  let total := home_win_prob + away_win_prob + base_draw_prob in
  let home_prob := home_win_prob / total in
  let away_prob := away_win_prob / total in
  let draw_prob := base_draw_prob / total in
  let max_prob := max3 home_prob away_prob draw_prob in
  let '(predicted_outcome, predicted_winner, confidence) :=
    if Req_dec_T max_prob home_prob then
      (home_team_name ++ " Win", home_team_name,
       1/2 + min2 (4/10) (home_prob - 1/2))
    else if Req_dec_T max_prob away_prob then
      (away_team_name ++ " Win", away_team_name,
       1/2 + min2 (4/10) (away_prob - 1/2))
    else
      ("Draw", "Draw", 1/2 + min2 (3/10) (draw_prob - 25/100)) in
  let gap := IZR (Z.abs elo_diff) in
  let stronger := if Z.gtb elo_diff 0 then home_team_name else away_team_name in
  let first :=
    if Z.gtb (Z.abs elo_diff) 200 then SuperiorQuality stronger gap
    else if Z.gtb (Z.abs elo_diff) 100 then QualityEdge stronger gap
    else EvenlyMatched gap in
  let chances :=
    if Rlt_dec (away_xg + 1/2) home_xg then [MoreChances home_team_name home_xg away_xg]
    else if Rlt_dec (home_xg + 1/2) away_xg then [MoreChances away_team_name away_xg home_xg]
    else [] in
  mk_intl_result predicted_outcome predicted_winner home_xg away_xg confidence
    home_prob draw_prob away_prob
    (first :: chances ++ [Scoreline home_xg away_xg])%list
    home_elo away_elo elo_diff.

End EloFallback.

(* ------------------------------------------------------------------ *)
(** ** The match tables read by the SQL queries *)

Module Db.
Open Scope Z_scope.

(** [matches.winner]; [None] is SQL NULL. *)
Inductive winner_col := HOME_TEAM | AWAY_TEAM | DRAW.

Record team_row := mk_team_row {
  id : Z;
  external_id : Z
}.

(** A row of [matches]; [utc_date] is a time stamp and a query date
    ['YYYY-MM-DD'] is the stamp of its midnight, on the same scale. *)
Record match_row := mk_match_row {
  home_team_id : Z;
  away_team_id : Z;
  status : string;
  utc_date : Z;
  winner : option winner_col
}.

Record database := mk_database {
  teams : list team_row;
  matches : list match_row
}.

(** [FROM teams t JOIN matches m ON (m.home_team_id = t.id OR
    m.away_team_id = t.id) WHERE t.external_id = team_id]. *)
Definition team_matches (db : database) (team_id : Z) : list (team_row * match_row) :=
  filter (fun tm =>
            let '(t, m) := tm in
            (Z.eqb (home_team_id m) (id t) || Z.eqb (away_team_id m) (id t))
            && Z.eqb (external_id t) team_id)
         (list_prod (teams db) (matches db)).

Definition finished (m : match_row) : bool := String.eqb (status m) "FINISHED".

End Db.

(* ------------------------------------------------------------------ *)
(** ** [TeamAgnosticPredictor._check_team_has_data] (predictor_v2.py,
    lines 128-144), the data-sufficiency gate. *)

Module DataGate.
Import Db.

(** [SELECT COUNT( * ) ... WHERE t.external_id = %s AND m.status = 'FINISHED'].
    The query is executed with [(team_id,)] only: [match_date] is not used. *)
Definition check_team_has_data (db : database) (team_id : Z) (match_date : Z) : bool :=
  let count := length (filter (fun tm => finished (snd tm)) (team_matches db team_id)) in
  Nat.ltb 5 count.

(** The quantity named by the gate's specification: finished matches of the
    team strictly before [as_of]. *)
Definition finished_matches_before (db : database) (team_id as_of : Z) : nat :=
  length (filter (fun tm => finished (snd tm) && Z.ltb (utc_date (snd tm)) as_of)
                 (team_matches db team_id)).

End DataGate.

(* ------------------------------------------------------------------ *)
(** ** [TeamAgnosticFeatureEngineer._get_team_form] (feature_engineering.py,
    lines 317-372). *)

Module Form.
Import Db.
Open Scope Q_scope.

(** The [CASE] of the query: 3 for a win of the team, 1 for a draw. *)
Definition points (t : team_row) (m : match_row) : Z :=
  if (Z.eqb (home_team_id m) (id t) && match winner m with Some HOME_TEAM => true | _ => false end)
     || (Z.eqb (away_team_id m) (id t) && match winner m with Some AWAY_TEAM => true | _ => false end)
  then 3%Z
  else match winner m with Some DRAW => 1%Z | _ => 0%Z end.

(** The rows that pass the [WHERE] clause. *)
Definition form_rows (db : database) (team_id before_date : Z) : list (team_row * match_row) :=
  filter (fun tm => finished (snd tm) && Z.ltb (utc_date (snd tm)) before_date)
         (team_matches db team_id).

(** What PostgreSQL's parse analysis reads of a [SELECT] for its grouping
    rule: whether the select list holds an aggregate, the [GROUP BY]
    columns, and the columns referenced outside any aggregate in the
    select list and in [ORDER BY]; then the [LIMIT]. *)
Record select_shape := mk_select_shape {
  has_aggregate : bool;
  group_by : list string;
  select_bare_columns : list string;
  order_by_columns : list string;
  limit : nat
}.

(** The error raised by the database driver (psycopg2), which [pd.read_sql]
    lets through. *)
Inductive sql_error := GroupingError (column : string).

(** In a query that aggregates or groups, a column referenced outside an
    aggregate must be grouped: "column ... must appear in the GROUP BY
    clause or be used in an aggregate function". *)
Definition grouping_check (q : select_shape) : option sql_error :=
  if has_aggregate q || negb (match group_by q with [] => true | _ => false end) then
    match filter (fun c => negb (existsb (String.eqb c) (group_by q)))
                 (select_bare_columns q ++ order_by_columns q) with
    | c :: _ => Some (GroupingError c)
    | [] => None
    end
  else None.

(** [query_5] and [query_10]: the select list is
    [SUM(CASE ...)::float / (COUNT( * ) * 3)::float], there is no
    [GROUP BY], and the query ends in [ORDER BY m.utc_date DESC LIMIT n]. *)
Definition form_query (n : nat) : select_shape :=
  mk_select_shape true [] [] ["m.utc_date"] n.

(** [pd.read_sql] on a form query. A query the grouping rule accepts
    yields the one aggregate row over the rows of the [WHERE] clause
    ([SUM] over no rows is NULL, [None]), which [LIMIT] keeps. *)
Definition run_form_query (db : database) (team_id before_date : Z) (q : select_shape)
    : sql_error + list (option Q) :=
  match grouping_check q with
  | Some e => inl e
  | None =>
    let rows := form_rows db team_id before_date in
    let score :=
      match rows with
      | [] => None
      | _ => Some (inject_Z (fold_right Z.add 0%Z (map (fun tm => points (fst tm) (snd tm)) rows))
                   / inject_Z (Z.of_nat (length rows) * 3))
      end in
    inr (firstn (limit q) [score])
  end.

(** [df.iloc[0]['form_score'] if len(df) > 0 and df.iloc[0]['form_score']
    else 0.5]: NULL and 0.0 are falsy. *)
Definition first_score_or_default (df : list (option Q)) : Q :=
  match df with
  | Some v :: _ => if Qeq_bool v 0 then 1#2 else v
  | _ => 1#2
  end.

Record form_stats := mk_form_stats {
  form_last_5 : Q;
  form_last_10 : Q;
  momentum : Q
}.

(** The two queries run in order; an exception of either propagates out
    of [_get_team_form] ([inl]). *)
Definition get_team_form (db : database) (team_id before_date : Z)
    : sql_error + form_stats :=
  match run_form_query db team_id before_date (form_query 5) with
  | inl e => inl e
  | inr df_5 =>
    match run_form_query db team_id before_date (form_query 10) with
    | inl e => inl e
    | inr df_10 =>
      let form_5 := first_score_or_default df_5 in
      let form_10 := first_score_or_default df_10 in
      inr (mk_form_stats form_5 form_10 (form_5 - form_10))
    end
  end.

End Form.

(* ------------------------------------------------------------------ *)
(** ** [TeamAgnosticFeatureEngineer.extract_features_for_team]
    (feature_engineering.py, lines 28-102). The statistic readers it calls
    are SQL queries over the match tables; they are taken as the fields of
    a statistics source, except the two readers that are constants in the
    source ([_estimate_travel_distance], [_calculate_tactical_matchup]).
    Each reader returns a dictionary that holds every key read by
    [extract_features_for_team], so the [.get] defaults never apply and
    the dictionaries are records. The form reader of the source gives the
    values [_get_team_form] returns; run against the match tables that
    reader raises ([Form.get_team_form]), which
    [V2Predict.extract_features_for_team] threads. *)

Module Features.
Open Scope Q_scope.

Record attack_stats := mk_attack_stats {
  xg_per_game : Q;
  goals_per_game : Q;
  shots_per_game : Q;
  possession_avg : Q;
  pressing_intensity : Q;
  top_striker_xg : Q;
  playmaker_assists : Q;
  formation_attack_score : Q
}.

Record defense_stats := mk_defense_stats {
  xg_conceded_per_game : Q;
  goals_conceded_per_game : Q;
  defensive_rating : Q;
  goalkeeper_save_pct : Q;
  tackles_per_game : Q;
  formation_defense_score : Q
}.

Record h2h_stats := mk_h2h_stats {
  goals_scored_avg : Q;
  goals_conceded_avg : Q;
  win_rate : Q
}.

(** The statistic readers, by team external id and date. *)
Record stat_source := mk_stat_source {
  get_team_quality_rating : Z -> Z -> Q;
  get_team_attacking_stats : Z -> Z -> attack_stats;
  get_team_defensive_stats : Z -> Z -> defense_stats;
  calculate_rest_days : Z -> Z -> Q;
  calculate_injury_impact : Z -> Z -> Q;
  get_head_to_head_stats : Z -> Z -> Z -> h2h_stats;
  get_team_form : Z -> Z -> Form.form_stats;
  get_coach_win_rate : Z -> Z -> Q
}.

(** [_estimate_travel_distance]: the constant 200.0. *)
Definition estimate_travel_distance (team_id opponent_id : Z) : Q := 200.

(** [_calculate_tactical_matchup]: the constant 5.0. *)
Definition calculate_tactical_matchup (team_id opponent_id before_date : Z) : Q := 5.

(** The 31 features, in the insertion order of the source dictionary. *)
Record features := mk_features {
  team_quality_rating : Q;
  opponent_quality_rating : Q;
  team_xg_per_game : Q;
  team_goals_per_game : Q;
  team_shots_per_game : Q;
  team_striker_xg : Q;
  team_playmaker_assists : Q;
  team_formation_attack : Q;
  team_pressing_intensity : Q;
  team_possession_avg : Q;
  opponent_xg_conceded : Q;
  opponent_goals_conceded : Q;
  opponent_defensive_rating : Q;
  opponent_goalkeeper_save_pct : Q;
  opponent_tackles_per_game : Q;
  opponent_formation_defense : Q;
  venue_factor : Q;
  rest_days : Q;
  travel_distance : Q;
  injury_impact : Q;
  h2h_goals_scored_avg : Q;
  h2h_goals_conceded_avg : Q;
  h2h_win_rate : Q;
  team_form_last_5 : Q;
  team_form_last_10 : Q;
  team_momentum : Q;
  opponent_form_last_5 : Q;
  coach_win_rate : Q;
  tactical_matchup_score : Q;
  quality_difference : Q;
  attack_vs_defense : Q
}.

(** [list(features.values())]. *)
Definition feature_values (f : features) : list Q :=
  [team_quality_rating f; opponent_quality_rating f; team_xg_per_game f;
   team_goals_per_game f; team_shots_per_game f; team_striker_xg f;
   team_playmaker_assists f; team_formation_attack f; team_pressing_intensity f;
   team_possession_avg f; opponent_xg_conceded f; opponent_goals_conceded f;
   opponent_defensive_rating f; opponent_goalkeeper_save_pct f;
   opponent_tackles_per_game f; opponent_formation_defense f; venue_factor f;
   rest_days f; travel_distance f; injury_impact f; h2h_goals_scored_avg f;
   h2h_goals_conceded_avg f; h2h_win_rate f; team_form_last_5 f;
   team_form_last_10 f; team_momentum f; opponent_form_last_5 f;
   coach_win_rate f; tactical_matchup_score f; quality_difference f;
   attack_vs_defense f].

Definition extract_features_for_team (src : stat_source)
    (team_id opponent_id match_date : Z) (is_at_venue : bool) : features :=
  let team_quality := get_team_quality_rating src team_id match_date in
  let opponent_quality := get_team_quality_rating src opponent_id match_date in
  let team_attack := get_team_attacking_stats src team_id match_date in
  let opponent_defense := get_team_defensive_stats src opponent_id match_date in
  let h2h := get_head_to_head_stats src team_id opponent_id match_date in
  let form := get_team_form src team_id match_date in
  let opponent_form := get_team_form src opponent_id match_date in
  mk_features
    team_quality
    opponent_quality
    (xg_per_game team_attack)
    (goals_per_game team_attack)
    (shots_per_game team_attack)
    (top_striker_xg team_attack)
    (playmaker_assists team_attack)
    (formation_attack_score team_attack)
    (pressing_intensity team_attack)
    (possession_avg team_attack)
    (xg_conceded_per_game opponent_defense)
    (goals_conceded_per_game opponent_defense)
    (defensive_rating opponent_defense)
    (goalkeeper_save_pct opponent_defense)
    (tackles_per_game opponent_defense)
    (formation_defense_score opponent_defense)
    (if is_at_venue then 1 else 85#100)
    (calculate_rest_days src team_id match_date)
    (if is_at_venue then 0 else estimate_travel_distance team_id opponent_id)
    (calculate_injury_impact src team_id match_date)
    (goals_scored_avg h2h)
    (goals_conceded_avg h2h)
    (win_rate h2h)
    (Form.form_last_5 form)
    (Form.form_last_10 form)
    (Form.momentum form)
    (Form.form_last_5 opponent_form)
    (get_coach_win_rate src team_id match_date)
    (calculate_tactical_matchup team_id opponent_id match_date)
    (team_quality - opponent_quality)
    (xg_per_game team_attack - xg_conceded_per_game opponent_defense).

(** Every reader returns the same statistics for teams [a] and [b] at
    [d]; the head-to-head record of [a] against [b] is the one of [b]
    against [a]. *)
Definition same_history (src : stat_source) (a b d : Z) : Prop :=
  get_team_quality_rating src a d = get_team_quality_rating src b d /\
  get_team_attacking_stats src a d = get_team_attacking_stats src b d /\
  get_team_defensive_stats src a d = get_team_defensive_stats src b d /\
  calculate_rest_days src a d = calculate_rest_days src b d /\
  calculate_injury_impact src a d = calculate_injury_impact src b d /\
  get_head_to_head_stats src a b d = get_head_to_head_stats src b a d /\
  get_team_form src a d = get_team_form src b d /\
  get_coach_win_rate src a d = get_coach_win_rate src b d.

End Features.

(* ------------------------------------------------------------------ *)
(** ** [TeamAgnosticPredictor._generate_insights] (predictor_v2.py,
    lines 244-291) and [EnhancedMatchPredictor._generate_insights]
    (predictor_enhanced.py, lines 117-196). An insight is given by the
    values its f-string interpolates. *)

Module Insights.
Open Scope Q_scope.

Inductive insight :=
  | SuperiorSquad (team : string)
  | MoreChances (team : string) (xg_for xg_against : Q)
  | BetterForm (team : string)
  | Dominate (team : string) (home_goals away_goals : Q)
  | CloselyContested (home_goals away_goals : Q)
  | HighConfidence (winner : string)
  | Uncertain
  | StrongerAttack (team : string) (goals_per_game : Q)
  | SolidDefense (team : string)
  | HistoricalAdvantage (team : string) (rate : Q)
  | HeavilyFavored (team : string)
  | SlightEdge (team : string)
  | EvenlyMatched
  | DrawProbability (p : Q)
  | CompetitiveForm
  | ExpectClose
  | TightGame.

(** predictor_v2.py. *)
Definition v2_generate_insights (home_features away_features : Features.features)
    (result : ScorePredictor.match_result) (home_team_name away_team_name : string)
    : list insight :=
  let winner := ScorePredictor.predicted_winner result in
  let home_goals := ScorePredictor.team_a_predicted_goals result in
  let away_goals := ScorePredictor.team_b_predicted_goals result in
  let quality_diff := Features.quality_difference home_features in
  let quality :=
    if Py.ltb 15 (Qabs quality_diff)
    then [SuperiorSquad (if Py.ltb 0 quality_diff then home_team_name else away_team_name)]
    else [] in
  let home_xg := Features.team_xg_per_game home_features in
  let away_xg := Features.team_xg_per_game away_features in
  let xg :=
    if Py.ltb (away_xg + (1#2)) home_xg then [MoreChances home_team_name home_xg away_xg]
    else if Py.ltb (home_xg + (1#2)) away_xg then [MoreChances away_team_name away_xg home_xg]
    else [] in
  let home_form := Features.team_form_last_5 home_features in
  let away_form := Features.team_form_last_5 away_features in
  let form :=
    if Py.ltb (away_form + (15#100)) home_form then [BetterForm home_team_name]
    else if Py.ltb (home_form + (15#100)) away_form then [BetterForm away_team_name]
    else [] in
  let score :=
    if Py.ltb (away_goals + (3#2)) home_goals then [Dominate home_team_name home_goals away_goals]
    else if Py.ltb (home_goals + (3#2)) away_goals then [Dominate away_team_name home_goals away_goals]
    else if Py.ltb (Qabs (home_goals - away_goals)) (1#2) then [CloselyContested home_goals away_goals]
    else [] in
  let confidence := ScorePredictor.confidence_score result in
  let conf :=
    if Py.ltb (8#10) confidence then [HighConfidence winner]
    else if Py.ltb confidence (6#10) then [Uncertain]
    else [] in
  firstn 6 (quality ++ xg ++ form ++ score ++ conf)%list.

(** [features.get(key, 0)] on the feature dictionary. *)
Fixpoint get0 (features : list (string * Q)) (key : string) : Q :=
  match features with
  | [] => 0
  | (k, v) :: rest => if String.eqb k key then v else get0 rest key
  end.

(** [name if name else default]: [None] and the empty string are falsy. *)
Definition label (name : option string) (default : string) : string :=
  match name with
  | Some s => if String.eqb s "" then default else s
  | None => default
  end.

Inductive side := Home | Away | DrawSide.

(** predictor_enhanced.py; [probabilities] is [[away, draw, home]]. *)
Definition enhanced_generate_insights (features : list (string * Q))
    (away_win_prob draw_prob home_win_prob : Q)
    (home_team_name away_team_name : option string) : list insight :=
  let home_label := label home_team_name "Home team" in
  let away_label := label away_team_name "Away team" in
  let predicted_winner :=
    if Py.ltb draw_prob home_win_prob && Py.ltb away_win_prob home_win_prob then Home
    else if Py.ltb draw_prob away_win_prob && Py.ltb home_win_prob away_win_prob then Away
    else DrawSide in
  let insights :=
    match predicted_winner with
    | DrawSide => [EvenlyMatched; DrawProbability draw_prob; CompetitiveForm]
    | _ =>
      let is_home := match predicted_winner with Home => true | _ => false end in
      let winner_label := if is_home then home_label else away_label in
      let form_diff := get0 features "form_difference" in
      let attack_diff := get0 features "attack_strength_diff" in
      let defense_diff := get0 features "defense_strength_diff" in
      let h2h_home_rate := get0 features "h2h_home_win_rate" in
      let h2h_away_rate := get0 features "h2h_away_win_rate" in
      let home_goals_pg := get0 features "home_goals_per_game" in
      let away_goals_pg := get0 features "away_goals_per_game" in
      let form :=
        if (is_home && Py.ltb (1#10) form_diff) || (negb is_home && Py.ltb form_diff (-1#10))
        then [BetterForm winner_label] else [] in
      let attack :=
        if is_home && Py.ltb (2#10) attack_diff then [StrongerAttack winner_label home_goals_pg]
        else if negb is_home && Py.ltb attack_diff (-2#10)
        then [StrongerAttack winner_label away_goals_pg]
        else [] in
      let defense :=
        if (is_home && Py.ltb (2#10) defense_diff) || (negb is_home && Py.ltb defense_diff (-2#10))
        then [SolidDefense winner_label] else [] in
      let h2h :=
        if is_home && Py.ltb h2h_away_rate h2h_home_rate
        then [HistoricalAdvantage winner_label h2h_home_rate]
        else if negb is_home && Py.ltb h2h_home_rate h2h_away_rate
        then [HistoricalAdvantage winner_label h2h_away_rate]
        else [] in
      let win_prob := if is_home then home_win_prob else away_win_prob in
      let conf :=
        if Py.ltb (7#10) win_prob then [HeavilyFavored winner_label]
        else if Py.ltb (1#2) win_prob then [SlightEdge winner_label]
        else [] in
      (form ++ attack ++ defense ++ h2h ++ conf)%list
    end in
  let insights :=
    if Nat.ltb (length insights) 3 then (insights ++ [ExpectClose; TightGame])%list else insights in
  firstn 6 insights.

End Insights.

(* ------------------------------------------------------------------ *)
(** ** Concrete inputs *)

Module Scenarios.
Import Db.
Open Scope Z_scope.

(** Team with primary key 1 and external id 7; its opponent has key 2. *)
Definition team7 : team_row := mk_team_row 1 7.
Definition team8 : team_row := mk_team_row 2 8.

(** Five finished matches before the day starting at stamp 1000, and one
    finished later on that day. *)
Definition gate_db : database :=
  mk_database [team7; team8]
    [ mk_match_row 1 2 "FINISHED" 100 (Some HOME_TEAM);
      mk_match_row 2 1 "FINISHED" 200 (Some DRAW);
      mk_match_row 1 2 "FINISHED" 300 (Some AWAY_TEAM);
      mk_match_row 2 1 "FINISHED" 400 (Some HOME_TEAM);
      mk_match_row 1 2 "FINISHED" 500 (Some HOME_TEAM);
      mk_match_row 2 1 "FINISHED" 1900 (Some AWAY_TEAM) ].

(** The five most recent finished matches of team 7 before stamp 1000:
    one draw and four losses. *)
Definition recent_five : list match_row :=
  [ mk_match_row 2 1 "FINISHED" 200 (Some DRAW);
    mk_match_row 1 2 "FINISHED" 300 (Some AWAY_TEAM);
    mk_match_row 2 1 "FINISHED" 400 (Some HOME_TEAM);
    mk_match_row 1 2 "FINISHED" 500 (Some AWAY_TEAM);
    mk_match_row 2 1 "FINISHED" 600 (Some HOME_TEAM) ].

Definition form_db_recent : database := mk_database [team7; team8] recent_five.

(** A statistics source that returns the same values for every team. *)
Definition flat_source : Features.stat_source :=
  Features.mk_stat_source
    (fun _ _ => 50%Q)
    (fun _ _ => Features.mk_attack_stats (3#2) (3#2) 12 50 5 (1#2) 3 5)
    (fun _ _ => Features.mk_defense_stats (3#2) (3#2) 5 (7#10) 15 5)
    (fun _ _ => 7%Q)
    (fun _ _ => 0%Q)
    (fun _ _ _ => Features.mk_h2h_stats (3#2) (3#2) (1#2))
    (fun _ _ => Form.mk_form_stats (1#2) (1#2) 0)
    (fun _ _ => (1#2)%Q).

(** Teams 7 and 8 share one history, every other team has another. *)
Definition twin (team_id : Z) : bool := Z.eqb team_id 7 || Z.eqb team_id 8.

(** A statistics source that tells teams apart: its readers give teams 7
    and 8 the same statistics and other teams different ones; the
    head-to-head record of 7 against 8 is the one of 8 against 7. *)
Definition twin_source : Features.stat_source :=
  Features.mk_stat_source
    (fun t _ => if twin t then 64%Q else 41%Q)
    (fun t _ => if twin t then Features.mk_attack_stats (17#10) (9#5) 14 55 6 (1#2) 3 5
                else Features.mk_attack_stats (11#10) (6#5) 10 45 4 (1#2) 3 5)
    (fun t _ => if twin t then Features.mk_defense_stats (3#2) (6#5) 5 (7#10) 15 5
                else Features.mk_defense_stats (3#2) (17#10) 5 (7#10) 15 5)
    (fun t _ => if twin t then 5%Q else 9%Q)
    (fun t _ => if twin t then (-1#10)%Q else 0%Q)
    (fun t o _ => if twin t && twin o then Features.mk_h2h_stats 1 1 (1#3)
                  else Features.mk_h2h_stats (3#2) (3#2) (1#2))
    (fun t _ => if twin t then Form.mk_form_stats (3#5) (8#15) (1#15)
                else Form.mk_form_stats (1#3) (2#5) (-1#15))
    (fun t _ => if twin t then (11#20)%Q else (2#5)%Q).

End Scenarios.

(* ------------------------------------------------------------------ *)
(* ------------------------------------------------------------------ *)
(** ** The statistic readers of [TeamAgnosticFeatureEngineer]
    (feature_engineering.py) and of [TeamAgnosticTrainer]
    (train_team_agnostic.py). Each reader runs one SQL query and
    post-processes the first row of the resulting data frame; the
    readers whose [WHERE] clause is the one of the form query are
    embedded down to the match tables, the others from the fetched
    rows. *)

Module Readers.
Import Db.
Open Scope Q_scope.

(** Python truthiness of a float: [0.0] is falsy. *)
Definition truthy (x : Q) : bool := negb (Qeq_bool x 0).

(** A row of the quality query: [COUNT( * )], the [SUM] of wins and the
    two [AVG]s of scores. The averages are taken non-NULL: the query keeps
    only finished matches with a home score. *)
Record quality_row := mk_quality_row {
  total_matches : N;
  wins : N;
  avg_goals_scored : Q;
  avg_goals_conceded : Q
}.

(** [_get_team_quality_rating], lines 135-151 of feature_engineering.py. *)
Definition get_team_quality_rating (df : list quality_row) : Q :=
  match df with
  | [] => 50
  | row :: _ =>
    if N.eqb (total_matches row) 0 then 50 else
    let total := inject_Z (Z.of_N (total_matches row)) in
    let win_rate :=
      if Py.ltb 0 total then (inject_Z (Z.of_N (wins row)) / total) * 100 else 50 in
    let goal_diff :=
      if truthy (avg_goals_scored row)
      then avg_goals_scored row - avg_goals_conceded row else 0 in
    let goal_score := Py.min2 100 (Py.max2 0 (50 + goal_diff * 10)) in
    let quality_rating := win_rate * (6#10) + goal_score * (4#10) in
    Py.round quality_rating 2
  end.

(** [TeamAgnosticTrainer._get_team_quality], lines 196-206 of
    train_team_agnostic.py; its columns [total], [wins], [goals_scored],
    [goals_conceded] fill the same row. *)
Definition get_team_quality (df : list quality_row) : Q :=
  match df with
  | [] => 50
  | row :: _ =>
    if N.eqb (total_matches row) 0 then 50 else
    let win_rate :=
      (inject_Z (Z.of_N (wins row)) / inject_Z (Z.of_N (total_matches row))) * 100 in
    let goal_diff :=
      if truthy (avg_goals_scored row)
      then avg_goals_scored row - avg_goals_conceded row else 0 in
    let goal_score := Py.min2 100 (Py.max2 0 (50 + goal_diff * 10)) in
    Py.round (win_rate * (6#10) + goal_score * (4#10)) 2
  end.

(** Time stamps are in seconds. *)
Definition seconds_per_day : Z := 86400.

(** [SELECT MAX(m.utc_date) ... WHERE t.external_id = %s AND m.status =
    'FINISHED' AND m.utc_date < %s]; [MAX] over no rows is NULL. *)
Definition last_match_date (db : database) (team_id match_date : Z) : option Z :=
  fold_right (fun tm acc =>
                match acc with
                | Some v => Some (Z.max (utc_date (snd tm)) v)
                | None => Some (utc_date (snd tm))
                end)
             None (Form.form_rows db team_id match_date).

(** [_calculate_rest_days], lines 229-251 of feature_engineering.py:
    [(current_match - last_match).days], the whole days elapsed, capped
    at 14; 7 when the team has no earlier finished match. *)
Definition calculate_rest_days (db : database) (team_id match_date : Z) : Z :=
  match last_match_date db team_id match_date with
  | Some last_match =>
    let rest_days := ((match_date - last_match) / seconds_per_day)%Z in
    Z.min rest_days 14
  | None => 7%Z
  end.

(** The tables [players] and [player_availability]. *)
Record player_row := mk_player_row {
  p_id : Z;
  p_team_id : Z
}.

Record availability_row := mk_availability_row {
  player_id : Z;
  unavailable_from : Z;
  unavailable_until : option Z;
  reason : string
}.

(** [SELECT COUNT( * ) FROM player_availability pa JOIN players p ON
    pa.player_id = p.id JOIN teams t ON p.team_id = t.id WHERE ...]. *)
Definition injured_count (teams : list team_row) (players : list player_row)
    (pa : list availability_row) (team_id match_date : Z) : nat :=
  length (filter (fun apt =>
    let '(a, p, t) := apt in
    Z.eqb (player_id a) (p_id p) && Z.eqb (p_team_id p) (id t)
    && Z.eqb (external_id t) team_id
    && Z.leb (unavailable_from a) match_date
    && match unavailable_until a with
       | None => true
       | Some u => Z.leb match_date u
       end
    && (String.eqb (reason a) "injury" || String.eqb (reason a) "suspension"))
    (list_prod (list_prod pa players) teams)).

(** [_calculate_injury_impact], lines 258-279 of feature_engineering.py;
    the [COUNT] query returns one row. *)
Definition calculate_injury_impact (teams : list team_row) (players : list player_row)
    (pa : list availability_row) (team_id match_date : Z) : Q :=
  let df := [injured_count teams players pa team_id match_date] in
  let count := match df with c :: _ => c | [] => 0%nat end in
  - Py.min2 (3#10) (inject_Z (Z.of_nat count) * (5#100)).

(** A row of the head-to-head query; [None] is NULL. *)
Record h2h_row := mk_h2h_row {
  h2h_goals_scored_avg : option Q;
  h2h_goals_conceded_avg : option Q;
  h2h_win_rate : option Q
}.

Definition h2h_default : Features.h2h_stats := Features.mk_h2h_stats (3#2) (3#2) (1#2).

(** [_get_head_to_head_stats], lines 305-315 of feature_engineering.py.
    [None] is the [TypeError] raised by [float(None)] when the conceded
    average is NULL and the scored one is not. *)
Definition get_head_to_head_stats (df : list h2h_row) : option Features.h2h_stats :=
  match df with
  | row :: _ =>
    match h2h_goals_scored_avg row with
    | Some gs =>
      match h2h_goals_conceded_avg row with
      | Some gc =>
        Some (Features.mk_h2h_stats gs gc
                (match h2h_win_rate row with
                 | Some w => if truthy w then w else 1#2
                 | None => 1#2
                 end))
      | None => None
      end
    | None => Some h2h_default
    end
  | [] => Some h2h_default
  end.

(** The dictionary returned by [TeamAgnosticTrainer._get_attacking_stats]. *)
Record train_attack := mk_train_attack {
  derived_xg : Q;
  goals_per_game : Q;
  shots_per_game : Q;
  top_scorer_rate : Q;
  assists_per_game : Q;
  attack_rating : Q;
  pressing_score : Q;
  possession_estimate : Q
}.

(** [df.iloc[0][col] if len(df) > 0 and df.iloc[0][col] else 1.5] on the
    one-column result of an [AVG] query; NULL and 0.0 are falsy. *)
Definition first_avg_or_default (df : list (option Q)) : Q :=
  match df with
  | Some v :: _ => if truthy v then v else 3#2
  | _ => 3#2
  end.

(** Lines 223-239 of train_team_agnostic.py. *)
Definition get_attacking_stats (df : list (option Q)) : train_attack :=
  let goals_pg := first_avg_or_default df in
  let derived_xg := goals_pg * (105#100) in
  mk_train_attack derived_xg goals_pg (goals_pg * 8) (goals_pg * (4#10))
    (goals_pg * (7#10)) (Py.min2 10 (goals_pg * 3)) 5 50.

Record train_defense := mk_train_defense {
  derived_xg_conceded : Q;
  goals_conceded_per_game : Q;
  defense_rating : Q;
  save_rate : Q;
  tackles_estimate : Q;
  defense_formation_score : Q
}.

(** Lines 255-266 of train_team_agnostic.py. *)
Definition get_defensive_stats (df : list (option Q)) : train_defense :=
  let goals_conceded := first_avg_or_default df in
  mk_train_defense (goals_conceded * (105#100)) goals_conceded
    (Py.max2 0 (10 - goals_conceded * 3))
    (Py.max2 (1#2) ((8#10) - goals_conceded * (1#10))) 15 5.

End Readers.

(** The team an insight text names, if any. *)
Module InsightSubject.
Import Insights.

Definition subject (i : insight) : option string :=
  match i with
  | SuperiorSquad t | MoreChances t _ _ | BetterForm t | Dominate t _ _
  | HighConfidence t | StrongerAttack t _ | SolidDefense t
  | HistoricalAdvantage t _ | HeavilyFavored t | SlightEdge t => Some t
  | CloselyContested _ _ | Uncertain | EvenlyMatched | DrawProbability _
  | CompetitiveForm | ExpectClose | TightGame => None
  end.

End InsightSubject.

(** [TeamAgnosticFeatureEngineer.extract_match_features], lines 402-423 of
    feature_engineering.py: the first team is taken at its venue. *)
Module MatchFeatures.

Definition extract_match_features (src : Features.stat_source)
    (team_a_id team_b_id match_date : Z) : Features.features * Features.features :=
  (Features.extract_features_for_team src team_a_id team_b_id match_date true,
   Features.extract_features_for_team src team_b_id team_a_id match_date false).

End MatchFeatures.

(** [TeamAgnosticPredictor.predict], lines 23-126 of predictor_v2.py, for
    given team names. The network is absent ([None]) when [load] failed
    at construction, and is otherwise a function from the two feature
    dictionaries to its two raw goal outputs. The data gate and the form
    reader read the match tables, the other feature readers the
    statistics source. Every exception raised inside the [try] block ends
    in [_fallback_prediction]. *)
Module V2Predict.
Open Scope Q_scope.

(** [name or default] on a string: the empty string is falsy. *)
Definition or_default (name default : string) : string :=
  if String.eqb name "" then default else name.

(** The dictionary returned by [_fallback_prediction], lines 293-305. *)
Record fallback_result := mk_fallback_result {
  predicted_outcome : string;
  predicted_winner : string;
  team_a_predicted_goals : Q;
  team_b_predicted_goals : Q;
  confidence_score : Q;
  goal_difference : Q;
  model_version : string;
  insights : list string
}.

Definition fallback_prediction (home_team_name away_team_name : string) : fallback_result :=
  mk_fallback_result "Draw" "Draw" (3#2) (3#2) (1#2) 0 "fallback-v1.0"
    ["Model unavailable - using fallback prediction"].

(** The three shapes of the returned dictionary. *)
Inductive response :=
  | International (r : EloFallback.intl_result)
  | Network (result : ScorePredictor.match_result) (probs : ScorePredictor.probs)
            (insights : list Insights.insight)
  | Fallback (r : fallback_result).

(** The statistics source with its form reader answering [form] for
    [team_id] and [opponent_form] for any other team. *)
Definition with_forms (src : Features.stat_source) (team_id : Z)
    (form opponent_form : Form.form_stats) : Features.stat_source :=
  Features.mk_stat_source
    (Features.get_team_quality_rating src)
    (Features.get_team_attacking_stats src)
    (Features.get_team_defensive_stats src)
    (Features.calculate_rest_days src)
    (Features.calculate_injury_impact src)
    (Features.get_head_to_head_stats src)
    (fun t _ => if Z.eqb t team_id then form else opponent_form)
    (Features.get_coach_win_rate src).

(** [self.feature_engineer.extract_features_for_team(...)]: lines 87 and
    92 of feature_engineering.py call [_get_team_form] for the team and
    for the opponent, and an exception of either propagates ([inl]). *)
Definition extract_features_for_team (db : Db.database) (src : Features.stat_source)
    (team_id opponent_id match_date : Z) (is_at_venue : bool)
    : Form.sql_error + Features.features :=
  match Form.get_team_form db team_id match_date with
  | inl e => inl e
  | inr form =>
    match Form.get_team_form db opponent_id match_date with
    | inl e => inl e
    | inr opponent_form =>
      inr (Features.extract_features_for_team (with_forms src team_id form opponent_form)
             team_id opponent_id match_date is_at_venue)
    end
  end.

Definition predict (db : Db.database) (src : Features.stat_source)
    (model : option (Features.features -> Features.features -> Q * Q))
    (home_team_id away_team_id match_date : Z)
    (home_team_name away_team_name : string) : response :=
  let has_home_data := DataGate.check_team_has_data db home_team_id match_date in
  let has_away_data := DataGate.check_team_has_data db away_team_id match_date in
  if negb has_home_data && negb has_away_data then
    International (EloFallback.predict_international_match home_team_name away_team_name)
  else
    match extract_features_for_team db src home_team_id away_team_id match_date true with
    | inl _ => Fallback (fallback_prediction home_team_name away_team_name)
    | inr home_features =>
      match extract_features_for_team db src away_team_id home_team_id match_date false with
      | inl _ => Fallback (fallback_prediction home_team_name away_team_name)
      | inr away_features =>
        match model with
        (* [predict_match] raises [ValueError] when no model is loaded. *)
        | None => Fallback (fallback_prediction home_team_name away_team_name)
        | Some network =>
          let '(raw_a, raw_b) := network home_features away_features in
          let na := or_default home_team_name "Home Team" in
          let nb := or_default away_team_name "Away Team" in
          let result := ScorePredictor.predict_match raw_a raw_b na nb in
          let insights :=
            Insights.v2_generate_insights home_features away_features result
              home_team_name away_team_name in
          Network result (ScorePredictor.v2_response_probs raw_a raw_b na nb) insights
        end
      end
    end.

End V2Predict.

(* ================================================================== *)
(** * Proofs *)

(** ** Case analysis on the Python comparisons *)

Module PyFacts.
Open Scope Q_scope.

Lemma ltb_true (a b : Q) : Py.ltb a b = true -> a < b.
Proof.
  unfold Py.ltb; intro H; apply negb_true_iff in H.
  apply Qnot_le_lt; intro H'; apply Qle_bool_iff in H'; congruence.
Qed.

Lemma ltb_false (a b : Q) : Py.ltb a b = false -> b <= a.
Proof.
  unfold Py.ltb; intro H; apply negb_false_iff in H; now apply Qle_bool_iff.
Qed.

Lemma Qabs_cases (x : Q) : (0 <= x /\ Qabs x = x) \/ (x <= 0 /\ Qabs x = - x).
Proof.
  destruct x as [[|n|n] d]; unfold Qle; simpl.
  - left; split; [lia | reflexivity].
  - left; split; [lia | reflexivity].
  - right; split; [lia | reflexivity].
Qed.

Lemma length_append (s t : string) :
  String.length (s ++ t) = (String.length s + String.length t)%nat.
Proof. induction s as [|c s IH]; simpl; [reflexivity | now rewrite IH]. Qed.

(** A win label [name ++ " Win"] is never the string ["Draw"]. *)
Lemma win_label_not_draw (name : string) : name ++ " Win" <> "Draw".
Proof.
  intro H.
  assert (L := f_equal String.length H).
  rewrite length_append in L; simpl in L.
  destruct name; [discriminate | simpl in L; lia].
Qed.

End PyFacts.

(** Fails when [t] still contains a conditional. *)
Ltac no_if t :=
  lazymatch t with
  | context [if _ then _ else _] => fail
  | _ => idtac
  end.

(** Reduce record projections and settled conditionals. *)
Ltac qsimpl :=
  cbn [ScorePredictor.team_a_prob ScorePredictor.team_b_prob
       ScorePredictor.draw_prob ScorePredictor.res_branch
       ScorePredictor.outcome ScorePredictor.res_probs andb orb negb] in *.

(** Split every [Py.ltb], [Qeq_bool] and [Qabs] in the goal into cases,
    innermost first. *)
Ltac qcases :=
  repeat (qsimpl;
  match goal with
  | |- context [Qabs ?x] =>
      no_if x;
      let E := fresh "E" in
      destruct (PyFacts.Qabs_cases x) as [[? E] | [? E]]; rewrite E in *; clear E
  | |- context [Py.ltb ?a ?b] =>
      no_if a; no_if b;
      let E := fresh "E" in
      destruct (Py.ltb a b) eqn:E;
      [apply PyFacts.ltb_true in E | apply PyFacts.ltb_false in E]
  | |- context [Qeq_bool ?a ?b] =>
      no_if a; no_if b;
      let E := fresh "E" in
      destruct (Qeq_bool a b) eqn:E;
      [apply Qeq_bool_eq in E | apply Qeq_bool_neq in E]
  end).

(** Split conjunctions and introduce premises. *)
Ltac qintros :=
  repeat match goal with
  | |- _ /\ _ => split
  | |- _ -> _ => intro
  | |- ~ _ => intro
  end.

(** Close a case by linear arithmetic, also from a refuted [~ x == y]. *)
Ltac qclose :=
  unfold ScorePredictor.prob_sum in *;
  cbn [ScorePredictor.team_a_prob ScorePredictor.team_b_prob
       ScorePredictor.draw_prob ScorePredictor.res_branch
       ScorePredictor.outcome andb orb] in *;
  first
  [ reflexivity
  | qlra
  | match goal with H : ~ (_ == _) |- _ => exfalso; apply H; qlra end
  | discriminate
  | exfalso; eapply PyFacts.win_label_not_draw; eassumption
  | exfalso; qlra ].

Module ScorePredictorProofs.
Import ScorePredictor.
Open Scope Q_scope.

(** Small evaluations of the resolver. *)
Example resolve_equal_goals :
  outcome (resolve_raw 2 2 "A" "B") = "Draw".
Proof. vm_compute; reflexivity. Qed.

Example resolve_clear_win :
  outcome (resolve_raw 3 1 "A" "B") = "A Win".
Proof. vm_compute; reflexivity. Qed.

(** Sum of the three probabilities of [win_probs], branch by branch. *)
Lemma win_probs_sum (goal_diff : Q) :
  (1 < Qabs goal_diff -> prob_sum (win_probs goal_diff) == 1) /\
  (Qabs goal_diff <= 1 -> prob_sum (win_probs goal_diff) == 6#5).
Proof.
  unfold win_probs, Py.min2, Py.max2.
  qcases; split; intro; qclose.
Qed.

(** C1 (amended). The probabilities returned by [predict] next to the
    neural-network result sum to exactly 1 when the rounded goal difference
    exceeds 1 in absolute value, and to 1.2 otherwise (pA + pB = 1 and the
    draw probability is floored at 0.2); no renormalisation is applied. *)
Theorem predict_probs_sum_by_branch (raw_a raw_b : Q) (na nb : string) :
  let r := predict_match raw_a raw_b na nb in
  let d := team_a_predicted_goals r - team_b_predicted_goals r in
  (1 < Qabs d -> prob_sum (v2_probs raw_a raw_b na nb) == 1) /\
  (Qabs d <= 1 -> prob_sum (v2_probs raw_a raw_b na nb) == 6#5).
Proof. intros r d; unfold v2_probs; apply win_probs_sum. Qed.

(** C1 (counterexample). For the goal estimates 2.0 and 2.0 the returned
    probabilities are 0.5, 0.2 and 0.5: their sum 1.2 is not within 0.001
    of 1. *)
Lemma predict_probs_sum_counterexample :
  prob_sum (v2_response_probs 2 2 "A" "B") == 6#5 /\
  ~ (Qabs (prob_sum (v2_response_probs 2 2 "A" "B") - 1) <= 1#1000).
Proof.
  split; vm_compute; [reflexivity |].
  intro H; apply H; reflexivity.
Qed.

(** C2 (code defect). With goal estimates 2.0 and 2.0 the near-tie override
    fires; draw' = 0.85 and pA' = 0.425 as documented, but pB' is computed
    from the already rebalanced pA' and equals 0.393125, not pA'. *)
Theorem near_tie_rebalance_asymmetric :
  let r := resolve_raw 2 2 "A" "B" in
  res_branch r = NearTie /\
  draw_prob (res_probs r) == 17#20 /\
  team_a_prob (res_probs r) == 17#40 /\
  team_b_prob (res_probs r) == 629#1600 /\
  ~ (team_a_prob (res_probs r) == team_b_prob (res_probs r)).
Proof.
  vm_compute.
  split; [reflexivity |].
  split; [reflexivity |].
  split; [reflexivity |].
  split; [reflexivity |].
  discriminate.
Qed.

(** C7. Whenever the two win probabilities computed by [predict_match]
    differ by less than 0.02, the predicted outcome is "Draw", whichever
    of them is larger; equal goal estimates are one such case. *)
Theorem near_tie_forces_draw (raw_a raw_b : Q) (na nb : string) :
  Qabs (team_a_prob (pre_probs raw_a raw_b) - team_b_prob (pre_probs raw_a raw_b))
    < 2#100 ->
  predicted_outcome (predict_match raw_a raw_b na nb) = "Draw".
Proof.
  unfold predict_match, pre_probs; cbn [predicted_outcome].
  unfold resolve, win_probs, Py.max3, Py.max2, Py.min2.
  qcases; intro; qclose.
Qed.

Lemma near_tie_forces_draw_witness :
  Qabs (team_a_prob (pre_probs 2 2) - team_b_prob (pre_probs 2 2)) < 2#100 /\
  predicted_outcome (predict_match 2 2 "A" "B") = "Draw".
Proof.
  assert (H : Qabs (team_a_prob (pre_probs 2 2) - team_b_prob (pre_probs 2 2))
                < 2#100) by (vm_compute; reflexivity).
  split; [exact H | exact (near_tie_forces_draw 2 2 "A" "B" H)].
Defined.

(** C10. Before the near-tie check the draw probability is at most 0.3,
    exactly 0.2 when |goal_diff| <= 1, and strictly below the larger win
    probability, which is at least 0.5. Hence the natural-draw arm of the
    if/elif chain is never taken and "Draw" only comes from the near-tie
    override. *)
Theorem natural_draw_unreachable (raw_a raw_b : Q) (na nb : string) :
  let p := pre_probs raw_a raw_b in
  let d := clamp_goals raw_a - clamp_goals raw_b in
  let r := resolve_raw raw_a raw_b na nb in
  draw_prob p <= 3#10 /\
  (Qabs d <= 1 -> draw_prob p == 1#5) /\
  1#2 <= Py.max2 (team_a_prob p) (team_b_prob p) /\
  draw_prob p < Py.max2 (team_a_prob p) (team_b_prob p) /\
  res_branch r <> NaturalDraw /\
  (outcome r = "Draw" -> res_branch r = NearTie).
Proof.
  intros p d r; subst p d r.
  unfold pre_probs, resolve_raw, resolve, win_probs, Py.max3, Py.max2, Py.min2.
  qcases; qintros; qclose.
Qed.

End ScorePredictorProofs.

(** ** The rating fallback *)

Module EloFallbackProofs.
Import EloFallback.
Open Scope R_scope.

Lemma get_absent d name dflt : mem d name = false -> get d name dflt = dflt.
Proof.
  induction d as [|[k v] d IH]; simpl; [reflexivity|].
  intro H; apply orb_false_iff in H as [H1 H2].
  rewrite H1. now apply IH.
Qed.

Lemma ten_pow_bounds : 74/100 < Rpower 10 (IZR (-50) / 400) < 76/100.
Proof.
  set (x := Rpower 10 (IZR (-50) / 400)).
  assert (Hx : 0 < x) by (unfold x, Rpower; apply exp_pos).
  assert (H8 : x ^ 8 = / 10).
  { unfold x. rewrite <- Rpower_pow by (unfold Rpower; apply exp_pos).
    rewrite Rpower_mult.
    replace (IZR (-50) / 400 * INR 8) with (Ropp 1) by (simpl; rlra).
    rewrite Rpower_Ropp, Rpower_1; rlra. }
  split.
  - destruct (Rlt_le_dec (74/100) x) as [|Hle]; [assumption|].
    exfalso. assert (P := pow_incr x (74/100) 8 (conj (Rlt_le _ _ Hx) Hle)).
    rewrite H8 in P. simpl in P. rlra.
  - destruct (Rlt_le_dec x (76/100)) as [|Hle]; [assumption|].
    exfalso. assert (H0 : 0 <= 76/100) by rlra.
    assert (P := pow_incr (76/100) x 8 (conj H0 Hle)).
    rewrite H8 in P. simpl in P. rlra.
Qed.

Lemma draw_factor_50 : max2 0 (1 - 50 / 200) = 3/4.
Proof. unfold max2; destruct (Rlt_dec 0 (1 - 50/200)); rlra. Qed.

Ltac r_no_if t :=
  lazymatch t with
  | context [if _ then _ else _] => fail
  | _ => idtac
  end.

Ltac rcases :=
  repeat match goal with
  | |- context [Rlt_dec ?a ?b] =>
      r_no_if a; r_no_if b; destruct (Rlt_dec a b)
  | |- context [Req_dec_T ?a ?b] =>
      r_no_if a; r_no_if b; destruct (Req_dec_T a b)
  end.

Lemma intl_unknown_pair (home away : string) :
  mem elo_ratings home = false -> mem elo_ratings away = false ->
  let r := predict_international_match home away in
  home_elo r = 1700%Z /\ away_elo r = 1700%Z /\ elo_difference r = 50%Z /\
  predicted_outcome r = home ++ " Win" /\ predicted_winner r = home /\
  21/50 < confidence r < 43/100 /\
  confidence r = home_prob r /\
  away_prob r < home_prob r /\ draw_prob r < home_prob r /\
  21/50 < home_prob r < 43/100 /\ 317/1000 < away_prob r < 323/1000 /\
  draw_prob r = 27/107.
Proof.
  intros Hh Ha r; subst r.
  unfold predict_international_match.
  rewrite (get_absent _ _ _ Hh), (get_absent _ _ _ Ha).
  cbv zeta.
  simpl Z.add; simpl Z.sub; simpl Z.opp; simpl Z.abs.
  pose proof ten_pow_bounds as Hx.
  set (x := Rpower 10 (IZR (-50) / 400)) in *.
  rewrite draw_factor_50.
  assert (Hh0 : 0 < 1 / (1 + x)) by (apply Rdiv_lt_0_compat; rlra).
  assert (Hh1 : 1 / (1 + x) * (1 + x) = 1) by (field; rlra).
  set (h := 1 / (1 + x)) in *.
  assert (Hb : 1 / 1.76 < h < 1 / 1.74) by (split; Lra.nra).
  replace (h + (1 - h) + (25 / 100 * (3 / 4) + 15 / 100)) with (107/80) by rlra.
  unfold max3, max2, min2.
  rcases; cbn;
  repeat match goal with
  | |- _ /\ _ => split
  end;
  first
  [ reflexivity
  | rlra
  | match goal with H : ?a <> ?a |- _ => exfalso; apply H; reflexivity end
  | exfalso; rlra ].
Qed.

(** [away_xg] and [home_xg] of the response are the rating map at the
    looked-up (and, at home, adjusted) ratings. *)
Lemma xg_fields (home away : string) :
  let r := predict_international_match home away in
  home_xg r = elo_to_xg (get elo_ratings home 1700 + 50) /\
  away_xg r = elo_to_xg (get elo_ratings away 1700).
Proof.
  intro r; subst r; unfold predict_international_match; cbv zeta.
  match goal with
  | |- context [match ?e with pair _ _ => _ end] => destruct e as [[? ?] ?]
  end.
  split; reflexivity.
Qed.

(** C3 (amended). Two names absent from the rating table both resolve to
    the neutral rating 1700, and the +50 home bonus gives [elo_diff = 50].
    The home side then has the largest normalised probability (between
    0.42 and 0.43, against 0.317-0.323 away and 27/107 = 0.252 for the
    draw): the outcome is "<home> Win", not "Draw", and the confidence
    is that home probability, between 0.42 and 0.43 before rounding. *)
Theorem unknown_names_home_win (home away : string)
    (Hh : mem elo_ratings home = false) (Ha : mem elo_ratings away = false) :
  let r := predict_international_match home away in
  home_elo r = 1700%Z /\ away_elo r = 1700%Z /\ elo_difference r = 50%Z /\
  away_prob r < home_prob r /\ draw_prob r < home_prob r /\
  21/50 < home_prob r < 43/100 /\ 317/1000 < away_prob r < 323/1000 /\
  draw_prob r = 27/107 /\
  predicted_outcome r = home ++ " Win" /\ predicted_winner r = home /\
  confidence r = home_prob r /\ 21/50 < confidence r < 43/100.
Proof.
  intro r; subst r.
  destruct (intl_unknown_pair home away Hh Ha)
    as (H1 & H2 & H3 & H4 & H5 & H6 & H7 & H8 & H9 & H10 & H11 & H12).
  repeat split; assumption || apply H6 || apply H10 || apply H11.
Qed.

Lemma unknown_names_home_win_witness :
  mem elo_ratings "Atlantis" = false /\ mem elo_ratings "Lemuria" = false /\
  let r := predict_international_match "Atlantis" "Lemuria" in
  home_elo r = 1700%Z /\ away_elo r = 1700%Z /\ elo_difference r = 50%Z /\
  away_prob r < home_prob r /\ draw_prob r < home_prob r /\
  21/50 < home_prob r < 43/100 /\ 317/1000 < away_prob r < 323/1000 /\
  draw_prob r = 27/107 /\
  predicted_outcome r = "Atlantis Win" /\ predicted_winner r = "Atlantis" /\
  confidence r = home_prob r /\ 21/50 < confidence r < 43/100.
Proof.
  assert (Hh : mem elo_ratings "Atlantis" = false) by (vm_compute; reflexivity).
  assert (Ha : mem elo_ratings "Lemuria" = false) by (vm_compute; reflexivity).
  split; [exact Hh | split; [exact Ha |]].
  exact (unknown_names_home_win "Atlantis" "Lemuria" Hh Ha).
Defined.

(** C3 (counterexample). Two names absent from the table do not give a
    "Draw". *)
Lemma unknown_names_not_draw :
  predicted_outcome (predict_international_match "Atlantis" "Lemuria") <> "Draw".
Proof.
  assert (Hh : mem elo_ratings "Atlantis" = false) by (vm_compute; reflexivity).
  assert (Ha : mem elo_ratings "Lemuria" = false) by (vm_compute; reflexivity).
  destruct (intl_unknown_pair "Atlantis" "Lemuria" Hh Ha) as (_ & _ & _ & H & _).
  rewrite H; discriminate.
Qed.

(** C4 (code defect). The rating map [0.8 + (r - 1400) / 300] gives 0.8 at
    1400 but 1.8 at 1700 and 2.8 at 2000, not the documented 1.5 and 2.2;
    e.g. the away side "Saudi Arabia" (rating 1700) gets 1.8 expected goals. *)
Theorem elo_to_xg_anchor_values :
  elo_to_xg 1400 = 8/10 /\ elo_to_xg 1700 = 18/10 /\ elo_to_xg 2000 = 28/10 /\
  elo_to_xg 1700 <> 15/10 /\ elo_to_xg 2000 <> 22/10 /\
  away_xg (predict_international_match "Atlantis" "Saudi Arabia") = 18/10.
Proof.
  destruct (xg_fields "Atlantis" "Saudi Arabia") as [_ ->].
  unfold elo_to_xg; cbn -[IZR Rdiv Rplus].
  repeat split; rlra.
Qed.

End EloFallbackProofs.

(** ** The data-sufficiency gate *)

Module DataGateProofs.
Import Db DataGate Scenarios.

(** The gate's answer does not depend on the date it is given. *)
Lemma check_team_has_data_date_independent (db : database) (team_id d1 d2 : Z) :
  check_team_has_data db team_id d1 = check_team_has_data db team_id d2.
Proof. reflexivity. Qed.

(** C5 (code defect). The gate counts every finished match of the team,
    whatever its date: for a team with five finished matches before the
    as-of day and a sixth finished later that day, the count is 6 > 5 and
    the gate answers true, although only 5 matches are strictly before. *)
Theorem gate_counts_matches_on_as_of_day :
  check_team_has_data gate_db 7 1000 = true /\
  finished_matches_before gate_db 7 1000 = 5%nat /\
  (forall db team_id d1 d2,
     check_team_has_data db team_id d1 = check_team_has_data db team_id d2).
Proof.
  split; [reflexivity |]. split; [reflexivity |].
  exact check_team_has_data_date_independent.
Qed.

End DataGateProofs.

(** ** The form features *)

Module FormProofs.
Import Db Form Scenarios.
Open Scope Q_scope.

(** C6 (code defect). The form queries are rejected by PostgreSQL: they
    aggregate without [GROUP BY] and order by the ungrouped column
    [m.utc_date]. [_get_team_form] therefore raises for every team, date
    and database, e.g. for team 7 with five finished matches before the
    date, and no windowed form score is ever computed. *)
Theorem form_query_always_rejected :
  grouping_check (form_query 5) = Some (GroupingError "m.utc_date") /\
  grouping_check (form_query 10) = Some (GroupingError "m.utc_date") /\
  get_team_form form_db_recent 7 1000 = inl (GroupingError "m.utc_date") /\
  (forall db team_id before_date,
     get_team_form db team_id before_date = inl (GroupingError "m.utc_date")).
Proof.
  split; [reflexivity |]. split; [reflexivity |]. split; [reflexivity |].
  intros db team_id before_date; reflexivity.
Qed.

End FormProofs.

(** ** Role symmetry of the feature vector *)

Module FeaturesProofs.
Import Features.
Open Scope Q_scope.

(** C8. When every statistic read returns the same values for teams [a]
    and [b], the 31 features of ([a] against [b], at its venue) and of
    ([b] against [a], away) agree on every position except 16
    ([venue_factor]) and 18 ([travel_distance]). *)
Theorem role_swap_symmetry (src : stat_source) (a b d : Z)
    (H : same_history src a b d) :
  length (feature_values (extract_features_for_team src a b d true)) = 31%nat /\
  forall i, i <> 16%nat -> i <> 18%nat ->
  nth i (feature_values (extract_features_for_team src a b d true)) 0 =
  nth i (feature_values (extract_features_for_team src b a d false)) 0.
Proof.
  destruct H as (H1 & H2 & H3 & H4 & H5 & H6 & H7 & H8).
  split; [reflexivity |].
  unfold extract_features_for_team, feature_values; cbn.
  rewrite H1, H2, H3, H4, H5, H6, H7, H8.
  intros i Hi16 Hi18.
  do 31 (destruct i as [|i]; [reflexivity || congruence |]).
  reflexivity.
Qed.

Lemma role_swap_symmetry_witness :
  get_team_quality_rating Scenarios.twin_source 7 1000 <>
  get_team_quality_rating Scenarios.twin_source 9 1000 /\
  same_history Scenarios.twin_source 7 8 1000 /\
  length (feature_values (extract_features_for_team Scenarios.twin_source 7 8 1000 true))
  = 31%nat /\
  forall i, i <> 16%nat -> i <> 18%nat ->
  nth i (feature_values (extract_features_for_team Scenarios.twin_source 7 8 1000 true)) 0 =
  nth i (feature_values (extract_features_for_team Scenarios.twin_source 8 7 1000 false)) 0.
Proof.
  split; [intro E; vm_compute in E; discriminate |].
  assert (H : same_history Scenarios.twin_source 7 8 1000)
    by (repeat split; reflexivity).
  split; [exact H |].
  exact (role_swap_symmetry Scenarios.twin_source 7 8 1000 H).
Defined.

End FeaturesProofs.

(** ** Insight lists *)

Module InsightsProofs.
Import Insights Scenarios.
Open Scope Q_scope.

(** C9 (code defect). Both insight generators return at most 6 entries,
    but neither guarantees 3: the enhanced one pads with only two filler
    texts (an empty rule list gives 2 entries) and the one of
    predictor_v2 does not pad at all (here it gives 0 entries). *)
Theorem insights_capped_but_not_padded :
  (forall hf af r hn an, (length (v2_generate_insights hf af r hn an) <= 6)%nat) /\
  (forall f pa pd ph hn an,
     (length (enhanced_generate_insights f pa pd ph hn an) <= 6)%nat) /\
  length (enhanced_generate_insights [] (3#10) (1#4) (9#20) (Some "X") (Some "Y")) = 2%nat /\
  length (v2_generate_insights
            (Features.extract_features_for_team flat_source 7 8 1000 true)
            (Features.extract_features_for_team flat_source 8 7 1000 false)
            (ScorePredictor.predict_match 2 1 "X" "Y") "X" "Y") = 0%nat.
Proof.
  split; [intros; apply firstn_le_length |].
  split; [intros; apply firstn_le_length |].
  split; vm_compute; reflexivity.
Qed.

End InsightsProofs.

(* ================================================================== *)
(** * Further properties of the code *)

(** ** Rounding *)

Module RoundFacts.
Open Scope Q_scope.

Lemma ltb_compat (a a' b b' : Q) : a == a' -> b == b' -> Py.ltb a b = Py.ltb a' b'.
Proof.
  intros Ha Hb; unfold Py.ltb; f_equal.
  destruct (Qle_bool b a) eqn:E1, (Qle_bool b' a') eqn:E2; try reflexivity.
  - apply Qle_bool_iff in E1. rewrite Ha, Hb in E1.
    apply Qle_bool_iff in E1; congruence.
  - apply Qle_bool_iff in E2. rewrite <- Ha, <- Hb in E2.
    apply Qle_bool_iff in E2; congruence.
Qed.

(** [round] gives the same float for equal rationals. *)
Lemma round_compat (x y : Q) (n : nat) : x == y -> Py.round x n = Py.round y n.
Proof.
  intro H; unfold Py.round; cbv zeta.
  set (s := inject_Z (10 ^ Z.of_nat n)).
  assert (Hs : x * s == y * s) by (rewrite H; reflexivity).
  rewrite (Qfloor_comp _ _ Hs).
  set (f := Qfloor (y * s)).
  rewrite (ltb_compat (x * s - inject_Z f) (y * s - inject_Z f) (1#2) (1#2))
    by qlra.
  rewrite (ltb_compat (1#2) (1#2) (x * s - inject_Z f) (y * s - inject_Z f))
    by qlra.
  reflexivity.
Qed.

Lemma scale_pos (n : nat) : 0 < inject_Z (10 ^ Z.of_nat n).
Proof.
  change 0 with (inject_Z 0). rewrite <- Zlt_Qlt.
  apply Z.pow_pos_nonneg; lia.
Qed.

(** [round(x, n)] scaled by [10^n] is the floor of [x * 10^n], or the
    next integer when [x * 10^n] lies strictly above its floor. *)
Lemma round_scaled (x : Q) (n : nat) :
  let s := inject_Z (10 ^ Z.of_nat n) in
  let f := Qfloor (x * s) in
  Py.round x n * s == inject_Z f \/
  (Py.round x n * s == inject_Z (f + 1) /\ inject_Z f < x * s).
Proof.
  intros s f.
  assert (Hs : 0 < s) by apply scale_pos.
  assert (Hdiv : forall k, inject_Z k / s * s == inject_Z k)
    by (intro k; field; intro E; rewrite E in Hs; discriminate).
  unfold Py.round; fold s; cbv zeta; fold f.
  destruct (Py.ltb (x * s - inject_Z f) (1#2)) eqn:E1;
    [left; apply Hdiv |].
  apply PyFacts.ltb_false in E1.
  assert (Hlt : inject_Z f < x * s) by qlra.
  destruct (Py.ltb (1#2) (x * s - inject_Z f)) eqn:E2;
    [right; split; [apply Hdiv | exact Hlt] |].
  destruct (Z.even f); [left; apply Hdiv | right; split; [apply Hdiv | exact Hlt]].
Qed.

Lemma round_lower (x : Q) (n : nat) (a : Z) :
  inject_Z a <= x * inject_Z (10 ^ Z.of_nat n) ->
  inject_Z a <= Py.round x n * inject_Z (10 ^ Z.of_nat n).
Proof.
  intro H.
  assert (Hf : (a <= Qfloor (x * inject_Z (10 ^ Z.of_nat n)))%Z)
    by (rewrite <- (Qfloor_Z a); apply Qfloor_resp_le; exact H).
  destruct (round_scaled x n) as [E | [E _]]; rewrite E; rewrite <- Zle_Qle; lia.
Qed.

Lemma round_upper (x : Q) (n : nat) (b : Z) :
  x * inject_Z (10 ^ Z.of_nat n) <= inject_Z b ->
  Py.round x n * inject_Z (10 ^ Z.of_nat n) <= inject_Z b.
Proof.
  intro H.
  pose proof (Qfloor_le (x * inject_Z (10 ^ Z.of_nat n))) as Hle.
  destruct (round_scaled x n) as [E | [E Hlt]]; rewrite E.
  - qlra.
  - assert (Hb : (Qfloor (x * inject_Z (10 ^ Z.of_nat n)) < b)%Z)
      by (rewrite Zlt_Qlt; qlra).
    rewrite <- Zle_Qle; lia.
Qed.

(** A value between two multiples of [10^-n] is rounded between them. *)
Lemma round_between (x lo hi : Q) (n : nat) (a b : Z) :
  lo == inject_Z a / inject_Z (10 ^ Z.of_nat n) ->
  hi == inject_Z b / inject_Z (10 ^ Z.of_nat n) ->
  lo <= x <= hi -> lo <= Py.round x n <= hi.
Proof.
  intros Hlo Hhi [H1 H2].
  pose proof (scale_pos n) as Hs.
  set (s := inject_Z (10 ^ Z.of_nat n)) in *.
  assert (Ha : inject_Z a == lo * s)
    by (rewrite Hlo; field; intro E; rewrite E in Hs; discriminate).
  assert (Hb : inject_Z b == hi * s)
    by (rewrite Hhi; field; intro E; rewrite E in Hs; discriminate).
  assert (L : inject_Z a <= Py.round x n * s)
    by (apply round_lower; fold s; rewrite Ha;
        apply Qmult_le_compat_r; [exact H1 | apply Qlt_le_weak; exact Hs]).
  assert (U : Py.round x n * s <= inject_Z b)
    by (apply round_upper; fold s; rewrite Hb;
        apply Qmult_le_compat_r; [exact H2 | apply Qlt_le_weak; exact Hs]).
  rewrite Ha in L; rewrite Hb in U.
  split; [apply (Qmult_le_r _ _ s Hs) | apply (Qmult_le_r _ _ s Hs)]; assumption.
Qed.

End RoundFacts.

Module ScorePredictorFacts.
Import ScorePredictor.
Open Scope Q_scope.

(** The if/elif chain of [predict_match] decided by the goal difference
    alone: a draw below a gap of 0.1, a win of the side ahead from 0.1. *)
Lemma resolve_cases (ga gb : Q) (na nb : string) :
  let d := ga - gb in
  let r := resolve ga gb na nb in
  (res_branch r = NearTie /\ Qabs d < 1#10 /\ outcome r = "Draw" /\
   winner r = "Draw" /\ confidence r == 171#200) \/
  (res_branch r = AWin /\ 1#10 <= d /\ outcome r = na ++ " Win" /\
   winner r = na /\ confidence r = calculate_confidence ga gb) \/
  (res_branch r = BWin /\ d <= -(1#10) /\ outcome r = nb ++ " Win" /\
   winner r = nb /\ confidence r = calculate_confidence gb ga).
Proof.
  intros d r; subst d r.
  unfold resolve, win_probs.
  destruct (Py.ltb 1 (ga - gb)) eqn:R1;
  [ apply PyFacts.ltb_true in R1
  | apply PyFacts.ltb_false in R1;
    destruct (Py.ltb (ga - gb) (-1)) eqn:R2;
    [apply PyFacts.ltb_true in R2 | apply PyFacts.ltb_false in R2] ];
  unfold Py.max3, Py.max2, Py.min2;
  qcases;
  cbn [ScorePredictor.winner ScorePredictor.confidence ScorePredictor.outcome
       ScorePredictor.res_branch andb orb negb] in *;
  first
  [ left; split; [reflexivity |]
  | right; left; split; [reflexivity |]
  | right; right; split; [reflexivity |]
  | exfalso ];
  qintros; qclose.
Qed.

Lemma calculate_confidence_range (w l : Q) :
  1#10 <= w - l -> 1#2 <= calculate_confidence w l <= 95#100.
Proof.
  intro H; unfold calculate_confidence, Py.min2.
  qcases; qintros; qlra.
Qed.

Lemma round_nonneg (x : Q) (n : nat) : 0 <= x -> 0 <= Py.round x n.
Proof.
  intro H.
  pose proof (RoundFacts.scale_pos n) as Hs.
  assert (L : inject_Z 0 <= Py.round x n * inject_Z (10 ^ Z.of_nat n)).
  { apply RoundFacts.round_lower.
    change (inject_Z 0) with (0 * inject_Z (10 ^ Z.of_nat n)).
    apply Qmult_le_compat_r; [exact H | apply Qlt_le_weak; exact Hs]. }
  change (inject_Z 0) with 0 in L.
  apply (Qmult_le_r _ _ _ Hs). qlra.
Qed.

Lemma clamp_goals_nonneg (raw : Q) : 0 <= clamp_goals raw.
Proof. unfold clamp_goals, Py.max2; qcases; qlra. Qed.

Lemma win_probs_range (goal_diff : Q) :
  let p := win_probs goal_diff in
  1#20 <= team_a_prob p <= 17#20 /\
  1#20 <= draw_prob p <= 3#10 /\
  1#20 <= team_b_prob p <= 17#20.
Proof.
  intro p; subst p.
  unfold win_probs, Py.min2, Py.max2.
  qcases; qintros; qclose.
Qed.

(** The confidence reached by the resolver, and the one reported. *)
Lemma resolve_confidence_range (ga gb : Q) (na nb : string) :
  1#2 <= confidence (resolve ga gb na nb) <= 95#100 /\
  (outcome (resolve ga gb na nb) = "Draw" -> confidence (resolve ga gb na nb) == 171#200).
Proof.
  destruct (ScorePredictorFacts.resolve_cases ga gb na nb)
    as [(_ & H1 & H3 & _ & H5) | [(_ & H1 & H3 & _ & H5) | (_ & H1 & H3 & _ & H5)]];
  rewrite H3.
  - rewrite H5; split; [split; qlra | intros _; reflexivity].
  - rewrite H5; split; [apply calculate_confidence_range; exact H1 |].
    intro E; exfalso; exact (PyFacts.win_label_not_draw na E).
  - rewrite H5; split; [apply calculate_confidence_range; qlra |].
    intro E; exfalso; exact (PyFacts.win_label_not_draw nb E).
Qed.

Lemma confidence_score_range (raw_a raw_b : Q) (na nb : string) :
  1#2 <= confidence_score (predict_match raw_a raw_b na nb) <= 95#100.
Proof.
  unfold predict_match; cbn [confidence_score].
  apply (RoundFacts.round_between _ _ _ 2 50 95); [reflexivity | reflexivity |].
  apply resolve_confidence_range.
Qed.

End ScorePredictorFacts.

Module ScorePredictorExtraProofs.
Import ScorePredictor.
Open Scope Q_scope.

(** X1. [predict_match] predicts a draw exactly when the clamped goal
    estimates differ by less than 0.1, a win of team A exactly when A's
    estimate is at least 0.1 higher, and a win of team B exactly when B's
    is at least 0.1 higher; the natural-draw arm is never taken. *)
Theorem predict_match_outcome_by_goal_gap (raw_a raw_b : Q) (na nb : string) :
  let d := clamp_goals raw_a - clamp_goals raw_b in
  let r := resolve_raw raw_a raw_b na nb in
  (res_branch r = NearTie <-> Qabs d < 1#10) /\
  (res_branch r = AWin <-> 1#10 <= d) /\
  (res_branch r = BWin <-> d <= -(1#10)) /\
  predicted_outcome (predict_match raw_a raw_b na nb) = outcome r /\
  predicted_winner (predict_match raw_a raw_b na nb) = winner r.
Proof.
  intros d r; subst d r; unfold resolve_raw.
  split; [| split; [| split; [| split; reflexivity]]];
  destruct (ScorePredictorFacts.resolve_cases (clamp_goals raw_a) (clamp_goals raw_b) na nb)
    as [(H2 & H1 & _) | [(H2 & H1 & _) | (H2 & H1 & _)]];
  rewrite H2; split; intro H; try discriminate; try reflexivity; try assumption;
  destruct (PyFacts.Qabs_cases (clamp_goals raw_a - clamp_goals raw_b)) as [[? E] | [? E]];
  try rewrite E in *; exfalso; qlra.
Qed.

(** X2. The confidence computed by [predict_match] lies in [0.5, 0.95],
    before and after its 2-decimal rounding; a predicted draw always has
    the confidence 0.855 before rounding. *)
Theorem predict_match_confidence_range (raw_a raw_b : Q) (na nb : string) :
  let r := resolve_raw raw_a raw_b na nb in
  (1#2 <= confidence r <= 95#100) /\
  (1#2 <= confidence_score (predict_match raw_a raw_b na nb) <= 95#100) /\
  (predicted_outcome (predict_match raw_a raw_b na nb) = "Draw" ->
   confidence r == 171#200).
Proof.
  intro r; subst r; unfold resolve_raw.
  destruct (ScorePredictorFacts.resolve_confidence_range
              (clamp_goals raw_a) (clamp_goals raw_b) na nb) as [C1 C2].
  split; [exact C1 | split; [| exact C2]].
  apply ScorePredictorFacts.confidence_score_range.
Qed.

(** X3. [predict_match] treats the two teams alike: swapping the two goal
    estimates together with the two names gives the same predicted
    outcome, predicted winner and confidence score, and swaps the two
    predicted goal values. *)
Theorem predict_match_swap (raw_a raw_b : Q) (na nb : string) :
  let r := predict_match raw_a raw_b na nb in
  let s := predict_match raw_b raw_a nb na in
  predicted_outcome s = predicted_outcome r /\
  predicted_winner s = predicted_winner r /\
  confidence_score s = confidence_score r /\
  team_a_predicted_goals s = team_b_predicted_goals r /\
  team_b_predicted_goals s = team_a_predicted_goals r.
Proof.
  intros r s; subst r s; unfold predict_match; cbn.
  set (ga := clamp_goals raw_a); set (gb := clamp_goals raw_b).
  destruct (ScorePredictorFacts.resolve_cases ga gb na nb)
    as [(_ & H1 & H3 & H4 & H5) | [(_ & H1 & H3 & H4 & H5) | (_ & H1 & H3 & H4 & H5)]];
  destruct (ScorePredictorFacts.resolve_cases gb ga nb na)
    as [(_ & K1 & K3 & K4 & K5) | [(_ & K1 & K3 & K4 & K5) | (_ & K1 & K3 & K4 & K5)]];
  try (exfalso;
       destruct (PyFacts.Qabs_cases (ga - gb)) as [[? E] | [? E]]; try rewrite E in *;
       destruct (PyFacts.Qabs_cases (gb - ga)) as [[? E'] | [? E']]; try rewrite E' in *;
       qlra);
  rewrite H3, H4, K3, K4;
  (split; [reflexivity | split; [reflexivity | split; [| split; reflexivity]]]).
  - apply RoundFacts.round_compat; rewrite H5, K5; reflexivity.
  - rewrite H5, K5; reflexivity.
  - rewrite H5, K5; reflexivity.
Qed.

(** X4. The predicted goals are never negative: a negative model output is
    reported as 0.0 goals. *)
Theorem predict_match_goals_nonnegative (raw_a raw_b : Q) (na nb : string) :
  let r := predict_match raw_a raw_b na nb in
  0 <= team_a_predicted_goals r /\ 0 <= team_b_predicted_goals r /\
  (raw_a <= 0 -> team_a_predicted_goals r == 0) /\
  (raw_b <= 0 -> team_b_predicted_goals r == 0).
Proof.
  intro r; subst r; unfold predict_match; cbn.
  split; [apply ScorePredictorFacts.round_nonneg, ScorePredictorFacts.clamp_goals_nonneg |].
  split; [apply ScorePredictorFacts.round_nonneg, ScorePredictorFacts.clamp_goals_nonneg |].
  split; intro H; unfold clamp_goals, Py.max2;
    (destruct (Py.ltb 0 _) eqn:E; [apply PyFacts.ltb_true in E; exfalso; qlra |]);
    reflexivity.
Qed.

(** X5. The win, draw and loss probabilities returned by [predict] with a
    neural-network result each lie in [0.05, 0.85] after rounding to two
    decimals, and the draw probability is at most 0.3. *)
Theorem v2_response_probs_range (raw_a raw_b : Q) (na nb : string) :
  let p := v2_response_probs raw_a raw_b na nb in
  1#20 <= team_a_prob p <= 17#20 /\
  1#20 <= draw_prob p <= 3#10 /\
  1#20 <= team_b_prob p <= 17#20.
Proof.
  intro p; subst p; unfold v2_response_probs; cbn [team_a_prob draw_prob team_b_prob].
  unfold v2_probs.
  destruct (ScorePredictorFacts.win_probs_range
              (team_a_predicted_goals (predict_match raw_a raw_b na nb) -
               team_b_predicted_goals (predict_match raw_a raw_b na nb)))
    as (A & D & B).
  split; [| split].
  - apply (RoundFacts.round_between _ _ _ 2 5 85); first [reflexivity | assumption].
  - apply (RoundFacts.round_between _ _ _ 2 5 30); first [reflexivity | assumption].
  - apply (RoundFacts.round_between _ _ _ 2 5 85); first [reflexivity | assumption].
Qed.

End ScorePredictorExtraProofs.

Module EloFallbackFacts.
Import EloFallback.
Open Scope R_scope.

(** The sign of the rating difference decides on which side of 1 the
    power [10 ** (-elo_diff / 400)] lies. *)
Lemma ten_pow_side (e : Z) :
  ((0 <= e)%Z -> Rpower 10 (IZR (- e) / 400) <= 1) /\
  ((e < 0)%Z -> 1 < Rpower 10 (IZR (- e) / 400)).
Proof.
  assert (H10 : 1 < 10) by rlra.
  assert (H1 : Rpower 10 0 = 1) by (apply Rpower_O; rlra).
  split; intro He.
  - destruct (Z.eq_dec e 0) as [-> | Hne].
    + replace (IZR (- 0) / 400) with 0 by (simpl; field). rewrite H1; rlra.
    + apply Rlt_le. rewrite <- H1. apply Rpower_lt; [exact H10 |].
      assert (IZR (- e) < 0) by (apply IZR_lt; lia). rlra.
  - rewrite <- H1 at 1. apply Rpower_lt; [exact H10 |].
    assert (0 < IZR (- e)) by (apply IZR_lt; lia). rlra.
Qed.

(** Case split on the comparisons of the decision (lines 182-201), not
    on those of the insight texts. *)
Ltac rcases_decision :=
  repeat match goal with
  | |- context [Rlt_dec ?a ?b] =>
      EloFallbackProofs.r_no_if a; EloFallbackProofs.r_no_if b;
      lazymatch a with context [elo_to_xg] => fail | _ => idtac end;
      destruct (Rlt_dec a b)
  | |- context [Req_dec_T ?a ?b] =>
      EloFallbackProofs.r_no_if a; EloFallbackProofs.r_no_if b;
      destruct (Req_dec_T a b)
  end.

(** The fallback's normalised probabilities, its decision and its
    confidence, for any two names. *)
Lemma intl_core (home away : string) :
  let r := predict_international_match home away in
  let e := elo_difference r in
  home_prob r + draw_prob r + away_prob r = 1 /\
  0 < home_prob r < 1 /\ 0 < draw_prob r < 1 /\ 0 < away_prob r < 1 /\
  ((0 <= e)%Z -> predicted_outcome r = home ++ " Win" /\ predicted_winner r = home /\
                 confidence r = home_prob r) /\
  ((e < 0)%Z -> predicted_outcome r = away ++ " Win" /\ predicted_winner r = away /\
                confidence r = away_prob r) /\
  5/14 <= confidence r < 20/23 /\
  draw_prob r <= 2/7.
Proof.
  intros r e; subst r e.
  unfold predict_international_match; cbv zeta.
  set (hE := get elo_ratings home 1700).
  set (aE := get elo_ratings away 1700).
  set (e := (hE + 50 - aE)%Z).
  destruct (ten_pow_side e) as [Side1 Side2].
  set (x := Rpower 10 (IZR (- e) / 400)) in *.
  assert (Hx : 0 < x) by (unfold x, Rpower; apply exp_pos).
  assert (Hh : 1 / (1 + x) * (1 + x) = 1) by (field; rlra).
  assert (Hh0 : 0 < 1 / (1 + x)) by (apply Rdiv_lt_0_compat; rlra).
  set (h := 1 / (1 + x)) in *.
  assert (Hh1 : h < 1) by Lra.nra.
  assert (Habs : 0 <= IZR (Z.abs e)) by (apply IZR_le; lia).
  assert (Hdf : 0 <= max2 0 (1 - IZR (Z.abs e) / 200) <= 1)
    by (unfold max2; destruct (Rlt_dec 0 (1 - IZR (Z.abs e) / 200)); rlra).
  set (df := max2 0 (1 - IZR (Z.abs e) / 200)) in *.
  set (bd := 25 / 100 * df + 15 / 100).
  assert (Hbd : 15/100 <= bd <= 40/100) by (unfold bd; rlra).
  replace (h + (1 - h) + bd) with (1 + bd) by ring.
  assert (Ht : / (1 + bd) * (1 + bd) = 1) by (field; rlra).
  assert (Ht0 : 0 < / (1 + bd)) by (apply Rinv_0_lt_compat; rlra).
  set (t := / (1 + bd)) in *.
  assert (Ht1 : 5/7 <= t <= 20/23) by (split; Lra.nra).
  replace (h / (1 + bd)) with (h * t) by (unfold t; field; rlra).
  replace ((1 - h) / (1 + bd)) with ((1 - h) * t) by (unfold t; field; rlra).
  replace (bd / (1 + bd)) with (bd * t) by (unfold t; field; rlra).
  assert (Hpair : h * t + (1 - h) * t = t) by ring.
  assert (Hsum : h * t + (1 - h) * t + bd * t = 1) by Lra.nra.
  assert (Hhp : 0 < h * t) by Lra.nra.
  assert (Hap : 0 < (1 - h) * t) by Lra.nra.
  assert (Hdp : 0 < bd * t <= 2/7) by (split; Lra.nra).
  assert (Hdlt : bd * t < h * t \/ bd * t < (1 - h) * t)
    by (destruct (Rle_lt_dec (1/2) h); [left | right]; Lra.nra).
  assert (Hhome : (0 <= e)%Z -> (1 - h) * t <= h * t)
    by (intro He; specialize (Side1 He); Lra.nra).
  assert (Haway : (e < 0)%Z -> h * t < (1 - h) * t)
    by (intro He; specialize (Side2 He); Lra.nra).
  set (hp := h * t) in *; set (ap := (1 - h) * t) in *; set (dp := bd * t) in *.
  unfold max3, max2, min2.
  rcases_decision; cbn;
  repeat match goal with
  | |- _ /\ _ => split
  | |- _ -> _ => intro
  end;
  first
  [ reflexivity
  | rlra
  | match goal with H : ?a <> ?a |- _ => exfalso; apply H; reflexivity end
  | exfalso; lia
  | exfalso; rlra
  | match goal with H : (e < 0)%Z |- _ => specialize (Haway H); exfalso; rlra end
  | match goal with H : (0 <= e)%Z |- _ => specialize (Hhome H); exfalso; rlra end
  | match goal with H : (e < 0)%Z |- _ => specialize (Haway H); rlra end
  | match goal with H : (0 <= e)%Z |- _ => specialize (Hhome H); rlra end ].
Qed.

Lemma intl_not_draw (home away : string) :
  predicted_outcome (predict_international_match home away) <> "Draw".
Proof.
  destruct (intl_core home away) as (_ & _ & _ & _ & H5 & H6 & _).
  destruct (Z_le_gt_dec 0 (elo_difference (predict_international_match home away)))
    as [Hle | Hgt].
  - destruct (H5 Hle) as [-> _]; apply PyFacts.win_label_not_draw.
  - assert (Hlt : (elo_difference (predict_international_match home away) < 0)%Z) by lia.
    destruct (H6 Hlt) as [-> _]; apply PyFacts.win_label_not_draw.
Qed.


End EloFallbackFacts.

Module EloFallbackExtraProofs.
Import EloFallback.
Open Scope R_scope.

(** X8. The three probabilities of the rating fallback are normalised:
    each lies strictly between 0 and 1 and their sum is 1, for any two
    names. *)
Theorem intl_probs_normalised (home away : string) :
  let r := predict_international_match home away in
  home_prob r + draw_prob r + away_prob r = 1 /\
  0 < home_prob r < 1 /\ 0 < draw_prob r < 1 /\ 0 < away_prob r < 1.
Proof.
  intro r; subst r.
  destruct (EloFallbackFacts.intl_core home away) as (H1 & H2 & H3 & H4 & _).
  repeat split; apply H1 || apply H2 || apply H3 || apply H4.
Qed.

(** X9. The rating fallback never predicts a draw: it predicts a home win
    exactly when the away rating is at most the home rating plus the home
    advantage of 50, and an away win otherwise; its draw probability is at
    most 2/7. *)
Theorem intl_never_draw (home away : string) :
  let r := predict_international_match home away in
  predicted_outcome r <> "Draw" /\
  draw_prob r <= 2/7 /\
  ((away_elo r <= home_elo r + 50)%Z ->
   predicted_outcome r = home ++ " Win" /\ predicted_winner r = home) /\
  ((home_elo r + 50 < away_elo r)%Z ->
   predicted_outcome r = away ++ " Win" /\ predicted_winner r = away).
Proof.
  intro r.
  assert (He : elo_difference r = (home_elo r + 50 - away_elo r)%Z).
  { subst r; unfold predict_international_match; cbv zeta.
    match goal with
    | |- context [match ?c with pair _ _ => _ end] => destruct c as [[? ?] ?]
    end; reflexivity. }
  subst r.
  destruct (EloFallbackFacts.intl_core home away) as (_ & _ & _ & _ & H5 & H6 & _ & H8).
  split; [| split; [exact H8 | split]].
  - apply EloFallbackFacts.intl_not_draw.
  - intro H; destruct H5 as (A & B & _); [lia |]; split; assumption.
  - intro H; destruct H6 as (A & B & _); [lia |]; split; assumption.
Qed.

(** X10. The confidence of the rating fallback is the normalised
    probability of the predicted winner; it lies in [5/14, 20/23), so the
    cap at 0.9 of line 200 never applies. *)
Theorem intl_confidence_is_winner_prob (home away : string) :
  let r := predict_international_match home away in
  (predicted_winner r = home /\ confidence r = home_prob r \/
   predicted_winner r = away /\ confidence r = away_prob r) /\
  5/14 <= confidence r < 20/23.
Proof.
  intro r; subst r.
  destruct (EloFallbackFacts.intl_core home away) as (_ & _ & _ & _ & H5 & H6 & H7 & _).
  split; [| exact H7].
  destruct (Z_le_gt_dec 0 (elo_difference (predict_international_match home away)))
    as [Hle | Hgt].
  - left; destruct (H5 Hle) as (_ & A & B); split; assumption.
  - right; destruct H6 as (_ & A & B); [lia |]; split; assumption.
Qed.


End EloFallbackExtraProofs.

Ltac split_ifs_inner :=
  repeat match goal with
  | |- context [if ?c then _ else _] =>
      lazymatch c with
      | context [if _ then _ else _] => fail
      | _ => destruct c
      end
  end.

Module InsightsFacts.
Import Insights.
Open Scope Q_scope.

Lemma ltb_of_lt (a b : Q) : a < b -> Py.ltb a b = true.
Proof.
  intro H; destruct (Py.ltb a b) eqn:E; [reflexivity |].
  apply PyFacts.ltb_false in E; exfalso; qlra.
Qed.

(** The padding of lines 190-196 on a list of at most five entries. *)
Lemma pad_facts (l : list insight) (P : insight -> Prop) :
  (length l <= 5)%nat -> P ExpectClose -> P TightGame -> Forall P l ->
  let l' := firstn 6 (if Nat.ltb (length l) 3 then (l ++ [ExpectClose; TightGame])%list
                      else l) in
  (2 <= length l' <= 5)%nat /\ Forall P l'.
Proof.
  intros Hl P1 P2 HF l'; subst l'.
  destruct (Nat.ltb_spec (length l) 3) as [Hlt | Hge].
  - rewrite firstn_all2 by (rewrite length_app; simpl; lia).
    split; [rewrite length_app; simpl; lia |].
    apply Forall_app; split; [exact HF | repeat constructor; assumption].
  - rewrite firstn_all2 by lia. split; [lia | exact HF].
Qed.

End InsightsFacts.

Module InsightsExtraProofs.
Import Insights.
Open Scope Q_scope.

(** X6. When [predict_match] predicts a draw, the insights of
    predictor_v2 contain "High confidence in Draw victory": a predicted
    draw always has the confidence 0.855 before rounding, so its
    2-decimal rounding is 0.85 or 0.86 (which one depends on the float
    nearest to 0.855), in both cases above the 0.8 threshold of line 285. *)
Theorem v2_draw_high_confidence (hf af : Features.features) (raw_a raw_b : Q)
    (na nb hn an : string) :
  ScorePredictor.predicted_outcome (ScorePredictor.predict_match raw_a raw_b na nb) = "Draw" ->
  85#100 <= ScorePredictor.confidence_score (ScorePredictor.predict_match raw_a raw_b na nb)
         <= 86#100 /\
  In (HighConfidence "Draw")
     (v2_generate_insights hf af (ScorePredictor.predict_match raw_a raw_b na nb) hn an).
Proof.
  intro H.
  assert (C : ScorePredictor.predicted_winner (ScorePredictor.predict_match raw_a raw_b na nb)
              = "Draw" /\
              85#100 <= ScorePredictor.confidence_score
                          (ScorePredictor.predict_match raw_a raw_b na nb) <= 86#100).
  { unfold ScorePredictor.predict_match in *.
    cbn [ScorePredictor.predicted_outcome ScorePredictor.predicted_winner
         ScorePredictor.confidence_score] in *.
    destruct (ScorePredictorFacts.resolve_cases
                (ScorePredictor.clamp_goals raw_a) (ScorePredictor.clamp_goals raw_b) na nb)
      as [(_ & _ & _ & W & Cf) | [(_ & _ & O & _) | (_ & _ & O & _)]].
    - split; [exact W |].
      apply (RoundFacts.round_between _ _ _ 2 85 86); [reflexivity | reflexivity |].
      rewrite Cf; split; qlra.
    - rewrite O in H; exfalso; exact (PyFacts.win_label_not_draw na H).
    - rewrite O in H; exfalso; exact (PyFacts.win_label_not_draw nb H). }
  destruct C as [W B].
  split; [exact B |].
  assert (L : Py.ltb (8#10)
                (ScorePredictor.confidence_score (ScorePredictor.predict_match raw_a raw_b na nb))
              = true) by (apply InsightsFacts.ltb_of_lt; qlra).
  unfold v2_generate_insights; cbv zeta.
  rewrite W, L.
  rewrite firstn_all2 by (rewrite !length_app; split_ifs_inner; simpl; lia).
  rewrite !in_app_iff; do 4 right; simpl; left; reflexivity.
Qed.

Lemma v2_draw_high_confidence_witness :
  ScorePredictor.predicted_outcome (ScorePredictor.predict_match 2 2 "X" "Y") = "Draw" /\
  85#100 <= ScorePredictor.confidence_score (ScorePredictor.predict_match 2 2 "X" "Y")
         <= 86#100 /\
  In (HighConfidence "Draw")
     (v2_generate_insights
        (Features.extract_features_for_team Scenarios.flat_source 7 8 1000 true)
        (Features.extract_features_for_team Scenarios.flat_source 8 7 1000 false)
        (ScorePredictor.predict_match 2 2 "X" "Y") "X" "Y").
Proof.
  assert (H : ScorePredictor.predicted_outcome (ScorePredictor.predict_match 2 2 "X" "Y")
              = "Draw") by (vm_compute; reflexivity).
  split; [exact H |].
  exact (v2_draw_high_confidence
           (Features.extract_features_for_team Scenarios.flat_source 7 8 1000 true)
           (Features.extract_features_for_team Scenarios.flat_source 8 7 1000 false)
           2 2 "X" "Y" "X" "Y" H).
Defined.

(** X7. The insights of predictor_v2 hold at most five entries, one per
    rule group (squad quality, expected goals, form, scoreline,
    confidence), so the cap at six of line 291 never cuts the list. *)
Theorem v2_insights_at_most_five (hf af : Features.features)
    (r : ScorePredictor.match_result) (hn an : string) :
  (length (v2_generate_insights hf af r hn an) <= 5)%nat.
Proof.
  unfold v2_generate_insights; cbv zeta.
  rewrite length_firstn, !length_app; split_ifs_inner; simpl; lia.
Qed.

(** X12. When no side has a probability strictly above the two others
    (e.g. equal home and away probabilities), the enhanced predictor gives
    exactly the three draw insights, without filler texts. *)
Theorem enhanced_draw_insights (features : list (string * Q))
    (pa pd ph : Q) (hn an : option string) :
  ~ (pd < ph /\ pa < ph) -> ~ (pd < pa /\ ph < pa) ->
  enhanced_generate_insights features pa pd ph hn an =
  [EvenlyMatched; DrawProbability pd; CompetitiveForm].
Proof.
  intros H1 H2; unfold enhanced_generate_insights; cbv zeta.
  assert (E1 : Py.ltb pd ph && Py.ltb pa ph = false).
  { destruct (Py.ltb pd ph) eqn:A, (Py.ltb pa ph) eqn:B; try reflexivity.
    exfalso; apply H1; split; apply PyFacts.ltb_true; assumption. }
  assert (E2 : Py.ltb pd pa && Py.ltb ph pa = false).
  { destruct (Py.ltb pd pa) eqn:A, (Py.ltb ph pa) eqn:B; try reflexivity.
    exfalso; apply H2; split; apply PyFacts.ltb_true; assumption. }
  rewrite E1, E2; reflexivity.
Qed.

Lemma enhanced_draw_insights_witness :
  ~ ((1#5) < (2#5) /\ (2#5) < (2#5)) /\ ~ ((1#5) < (2#5) /\ (2#5) < (2#5)) /\
  enhanced_generate_insights [] (2#5) (1#5) (2#5) (Some "X") (Some "Y") =
  [EvenlyMatched; DrawProbability (1#5); CompetitiveForm].
Proof.
  assert (H : ~ ((1#5) < (2#5) /\ (2#5) < (2#5)))
    by (intros [_ H]; exact (Qlt_irrefl _ H)).
  split; [exact H | split; [exact H |]].
  exact (enhanced_draw_insights [] (2#5) (1#5) (2#5) (Some "X") (Some "Y") H H).
Defined.

(** X13. The enhanced predictor returns between two and five insights,
    so its cap at six never applies; when one side has the strictly
    largest probability, every insight that names a team names that
    side, by its label or its "Home team" / "Away team" default. *)
Theorem enhanced_insights_shape (features : list (string * Q))
    (pa pd ph : Q) (hn an : option string) :
  let l := enhanced_generate_insights features pa pd ph hn an in
  (2 <= length l <= 5)%nat /\
  (pd < ph -> pa < ph ->
   Forall (fun i => InsightSubject.subject i = None \/
                    InsightSubject.subject i = Some (label hn "Home team")) l) /\
  (pd < pa -> ph < pa ->
   Forall (fun i => InsightSubject.subject i = None \/
                    InsightSubject.subject i = Some (label an "Away team")) l).
Proof.
  intro l; subst l; unfold enhanced_generate_insights; cbv zeta.
  destruct (Py.ltb pd ph && Py.ltb pa ph) eqn:W1;
  [| destruct (Py.ltb pd pa && Py.ltb ph pa) eqn:W2];
  cbn iota beta.
  - apply andb_true_iff in W1 as [W1a W1b].
    apply PyFacts.ltb_true in W1a; apply PyFacts.ltb_true in W1b.
    match goal with
    | |- context [firstn 6 (if Nat.ltb (length ?L) 3 then _ else _)] => set (ins := L)
    end.
    assert (Hl : (length ins <= 5)%nat)
      by (subst ins; rewrite !length_app; split_ifs_inner; simpl; lia).
    assert (HF : Forall (fun i => InsightSubject.subject i = None \/
                                  InsightSubject.subject i = Some (label hn "Home team")) ins).
    { subst ins; cbn [andb orb negb]; split_ifs_inner; simpl;
      repeat (apply Forall_cons; [right; reflexivity |]); apply Forall_nil. }
    destruct (InsightsFacts.pad_facts ins _ Hl (or_introl eq_refl) (or_introl eq_refl) HF)
      as [L1 L2].
    split; [exact L1 | split; [intros _ _; exact L2 | intros; exfalso; qlra]].
  - apply andb_true_iff in W2 as [W2a W2b].
    apply PyFacts.ltb_true in W2a; apply PyFacts.ltb_true in W2b.
    match goal with
    | |- context [firstn 6 (if Nat.ltb (length ?L) 3 then _ else _)] => set (ins := L)
    end.
    assert (Hl : (length ins <= 5)%nat)
      by (subst ins; rewrite !length_app; split_ifs_inner; simpl; lia).
    assert (HF : Forall (fun i => InsightSubject.subject i = None \/
                                  InsightSubject.subject i = Some (label an "Away team")) ins).
    { subst ins; cbn [andb orb negb]; split_ifs_inner; simpl;
      repeat (apply Forall_cons; [right; reflexivity |]); apply Forall_nil. }
    destruct (InsightsFacts.pad_facts ins _ Hl (or_introl eq_refl) (or_introl eq_refl) HF)
      as [L1 L2].
    split; [exact L1 | split; [intros; exfalso; qlra | intros _ _; exact L2]].
  - simpl; split; [lia | split].
    + intros A B.
      rewrite (InsightsFacts.ltb_of_lt _ _ A), (InsightsFacts.ltb_of_lt _ _ B) in W1.
      discriminate.
    + intros A B.
      rewrite (InsightsFacts.ltb_of_lt _ _ A), (InsightsFacts.ltb_of_lt _ _ B) in W2.
      discriminate.
Qed.

End InsightsExtraProofs.

Module ReadersFacts.
Import Db Readers.
Open Scope Q_scope.

Lemma total_pos (t : N) : t <> 0%N -> Py.ltb 0 (inject_Z (Z.of_N t)) = true.
Proof.
  intro H; destruct (Py.ltb 0 _) eqn:L; [reflexivity |].
  apply PyFacts.ltb_false in L.
  change 0 with (inject_Z 0) in L; rewrite <- Zle_Qle in L; lia.
Qed.

Lemma clamp_range (x : Q) : 0 <= Py.min2 100 (Py.max2 0 x) <= 100.
Proof. unfold Py.min2, Py.max2; qcases; qlra. Qed.

Lemma ratio_range (w t : N) :
  (w <= t)%N -> t <> 0%N ->
  0 <= inject_Z (Z.of_N w) / inject_Z (Z.of_N t) <= 1.
Proof.
  intros Hw Ht.
  assert (Hc : 0 < inject_Z (Z.of_N t))
    by (change 0 with (inject_Z 0); rewrite <- Zlt_Qlt; lia).
  assert (H0 : 0 <= inject_Z (Z.of_N w)) by (change 0 with (inject_Z 0); rewrite <- Zle_Qle; lia).
  assert (H1 : inject_Z (Z.of_N w) <= inject_Z (Z.of_N t)) by (rewrite <- Zle_Qle; lia).
  split; [apply Qle_shift_div_l | apply Qle_shift_div_r]; try exact Hc; qlra.
Qed.

Lemma form_rows_before (db : database) (team_id d : Z) tm :
  In tm (Form.form_rows db team_id d) -> (utc_date (snd tm) < d)%Z.
Proof.
  unfold Form.form_rows; rewrite filter_In; intros [_ H].
  apply andb_true_iff in H as [_ H]; apply Z.ltb_lt; exact H.
Qed.

Lemma last_match_before (l : list (team_row * match_row)) (d v : Z) :
  (forall tm, In tm l -> (utc_date (snd tm) < d)%Z) ->
  fold_right (fun tm acc =>
                match acc with
                | Some v => Some (Z.max (utc_date (snd tm)) v)
                | None => Some (utc_date (snd tm))
                end) None l = Some v ->
  (v < d)%Z.
Proof.
  revert v; induction l as [| tm l IH]; simpl; intros v H E; [discriminate |].
  assert (Htm : (utc_date (snd tm) < d)%Z) by (apply H; left; reflexivity).
  destruct (fold_right _ None l) as [v' |] eqn:F; injection E as <-.
  - assert (v' < d)%Z by (apply IH; [intros tm' Hin; apply H; right; exact Hin | reflexivity]).
    lia.
  - exact Htm.
Qed.

End ReadersFacts.

Module ReadersExtraProofs.
Import Db Readers.
Open Scope Q_scope.

(** X16. The trainer's [_get_team_quality] and the feature engineer's
    [_get_team_quality_rating] compute the same rating from the same
    query row: the [total > 0] guard of the latter is implied by the
    [total == 0] early return. *)
Theorem quality_rating_train_agree (df : list quality_row) :
  get_team_quality df = get_team_quality_rating df.
Proof.
  destruct df as [| row rest]; [reflexivity |].
  unfold get_team_quality, get_team_quality_rating.
  destruct (N.eqb (total_matches row) 0) eqn:E; [reflexivity |].
  apply N.eqb_neq in E; cbv zeta.
  rewrite (ReadersFacts.total_pos _ E); reflexivity.
Qed.

(** X17. The quality rating lies in [0, 100] when the team won at most
    as many matches as it played. *)
Theorem quality_rating_range (row : quality_row) (rest : list quality_row) :
  (wins row <= total_matches row)%N ->
  0 <= get_team_quality_rating (row :: rest) <= 100.
Proof.
  intro Hw; unfold get_team_quality_rating.
  destruct (N.eqb (total_matches row) 0) eqn:E; [split; qlra |].
  apply N.eqb_neq in E; cbv zeta.
  apply (RoundFacts.round_between _ _ _ 2 0 10000); [reflexivity | reflexivity |].
  rewrite (ReadersFacts.total_pos _ E).
  pose proof (ReadersFacts.ratio_range _ _ Hw E) as Hr.
  match goal with
  | |- context [Py.min2 100 (Py.max2 0 ?x)] => pose proof (ReadersFacts.clamp_range x)
  end.
  split; qlra.
Qed.

Lemma quality_rating_range_witness :
  (3 <= 5)%N /\
  0 <= get_team_quality_rating [mk_quality_row 5 3 (3#2) 1] <= 100.
Proof.
  assert (H : (3 <= 5)%N) by (vm_compute; discriminate).
  split; [exact H |].
  exact (quality_rating_range (mk_quality_row 5 3 (3#2) 1) [] H).
Defined.

(** X18. A team whose average scored goals is 0.0 is rated as if its
    goal difference were 0, whatever it conceded: the average 0.0 is
    falsy, so the goal score stays at 50. *)
Theorem quality_rating_zero_scoring (t w : N) (gc g : Q) (rest : list quality_row) :
  get_team_quality_rating (mk_quality_row t w 0 gc :: rest) =
  get_team_quality_rating (mk_quality_row t w g g :: rest).
Proof.
  unfold get_team_quality_rating;
    cbn [total_matches wins avg_goals_scored avg_goals_conceded].
  destruct (N.eqb t 0); [reflexivity |].
  cbv zeta; apply RoundFacts.round_compat.
  change (truthy 0) with false; cbn iota.
  destruct (truthy g); unfold Py.min2, Py.max2; qcases; qlra.
Qed.

(** X19. The rest days lie in [0, 14]; they are 7 when the team has no
    finished match before the date. *)
Theorem rest_days_range (db : database) (team_id match_date : Z) :
  (0 <= calculate_rest_days db team_id match_date <= 14)%Z /\
  (Form.form_rows db team_id match_date = [] ->
   calculate_rest_days db team_id match_date = 7%Z).
Proof.
  unfold calculate_rest_days.
  split.
  - destruct (last_match_date db team_id match_date) as [last |] eqn:L; [| lia].
    assert (Hl : (last < match_date)%Z).
    { apply (ReadersFacts.last_match_before (Form.form_rows db team_id match_date));
        [apply ReadersFacts.form_rows_before | exact L]. }
    assert (0 <= (match_date - last) / seconds_per_day)%Z
      by (apply Z.div_pos; unfold seconds_per_day; lia).
    lia.
  - intro R; unfold last_match_date; rewrite R; reflexivity.
Qed.

(** X20. The injury impact lies in [-0.3, 0], and it is 0 exactly when no
    player of the team is injured or suspended on the match date. *)
Theorem injury_impact_range (teams : list team_row) (players : list player_row)
    (pa : list availability_row) (team_id match_date : Z) :
  let impact := calculate_injury_impact teams players pa team_id match_date in
  -(3#10) <= impact <= 0 /\
  (impact == 0 <-> injured_count teams players pa team_id match_date = 0%nat).
Proof.
  intro impact; subst impact; unfold calculate_injury_impact; cbv zeta.
  set (n := injured_count teams players pa team_id match_date).
  assert (Hn : 0 <= inject_Z (Z.of_nat n))
    by (change 0 with (inject_Z 0); rewrite <- Zle_Qle; lia).
  unfold Py.min2.
  destruct (Py.ltb (inject_Z (Z.of_nat n) * (5#100)) (3#10)) eqn:L;
    [apply PyFacts.ltb_true in L | apply PyFacts.ltb_false in L].
  - split; [split; qlra |]. split.
    + intro H. assert (H0 : inject_Z (Z.of_nat n) == inject_Z 0) by (change (inject_Z 0) with 0; qlra).
      apply (proj1 (inject_Z_injective _ _)) in H0; lia.
    + intro H; rewrite H; reflexivity.
  - split; [split; qlra |]. split.
    + intro H; exfalso; qlra.
    + intro H; rewrite H in L; change (inject_Z (Z.of_nat 0)) with 0 in L; exfalso; qlra.
Qed.

(** X21. [_get_head_to_head_stats] raises (here [None]) exactly when the
    first row has a scored average and a NULL conceded average; the win
    rate it returns is never 0, since a rate 0.0 is falsy and replaced by
    0.5. *)
Theorem h2h_stats_error_and_win_rate (df : list h2h_row) :
  (get_head_to_head_stats df = None <->
   exists row rest gs, df = row :: rest /\ h2h_goals_scored_avg row = Some gs /\
                       h2h_goals_conceded_avg row = None) /\
  (forall s, get_head_to_head_stats df = Some s -> ~ Features.win_rate s == 0).
Proof.
  destruct df as [| [gs gc wr] rest]; simpl.
  - split; [split; [discriminate | intros (row & rs & g & H & _); discriminate] |].
    intros s [= <-]; simpl; intro H; qlra.
  - destruct gs as [gs |]; [destruct gc as [gc |] |].
    + split; [split; [discriminate | intros (row & rs & g & [= <- _] & _ & H); discriminate] |].
      intros s [= <-]; simpl.
      destruct wr as [w |]; [| intro H; qlra].
      destruct (truthy w) eqn:T; [| intro H; qlra].
      unfold truthy in T; apply negb_true_iff, Qeq_bool_neq in T; exact T.
    + split; [split; [intros _; exists (mk_h2h_row (Some gs) None wr), rest, gs; auto
                     | reflexivity] |].
      intros s H; discriminate.
    + split; [split; [discriminate | intros (row & rs & g & [= <- _] & H & _); discriminate] |].
      intros s [= <-]; simpl; intro H; qlra.
Qed.

(** X22. The trainer's attacking and defensive readers treat an average
    of 0.0 goals like missing data (the default 1.5 goals), and their
    ratings stay in range: the attack rating is at most 10, the defence
    rating at least 0 and the save rate at least 0.5. *)
Theorem train_stats_zero_average (rest df : list (option Q)) :
  get_attacking_stats (Some 0 :: rest) = get_attacking_stats [] /\
  get_defensive_stats (Some 0 :: rest) = get_defensive_stats [] /\
  attack_rating (get_attacking_stats df) <= 10 /\
  0 <= defense_rating (get_defensive_stats df) /\
  1#2 <= save_rate (get_defensive_stats df).
Proof.
  split; [reflexivity | split; [reflexivity |]].
  unfold get_attacking_stats, get_defensive_stats;
    cbn [attack_rating defense_rating save_rate].
  unfold Py.min2, Py.max2.
  split; [| split]; qcases; qlra.
Qed.

End ReadersExtraProofs.

Module MatchFeaturesExtraProofs.
Import Features MatchFeatures.
Open Scope Q_scope.

(** X23. The two feature vectors of [extract_match_features] mirror each
    other: each team's quality and recent form appear as the opponent's
    quality and form of the other vector, and the two quality differences
    are opposite, for every statistics source. *)
Theorem match_features_mirror (src : stat_source) (a b d : Z) :
  let fa := fst (extract_match_features src a b d) in
  let fb := snd (extract_match_features src a b d) in
  team_quality_rating fa = opponent_quality_rating fb /\
  opponent_quality_rating fa = team_quality_rating fb /\
  opponent_form_last_5 fa = team_form_last_5 fb /\
  team_form_last_5 fa = opponent_form_last_5 fb /\
  quality_difference fa == - quality_difference fb.
Proof.
  intros fa fb; subst fa fb; unfold extract_match_features, extract_features_for_team; cbn.
  repeat split; try reflexivity; qlra.
Qed.

End MatchFeaturesExtraProofs.

Module V2PredictExtraProofs.
Import V2Predict.
Open Scope Q_scope.

(** X24. When neither team passes the data gate, [predict] answers with
    the rating fallback for the two names, and that answer is never a
    draw. *)
Theorem predict_without_data_never_draw (db : Db.database) (src : Features.stat_source)
    (model : option (Features.features -> Features.features -> Q * Q))
    (home_id away_id match_date : Z) (hn an : string) :
  DataGate.check_team_has_data db home_id match_date = false ->
  DataGate.check_team_has_data db away_id match_date = false ->
  predict db src model home_id away_id match_date hn an =
  International (EloFallback.predict_international_match hn an) /\
  EloFallback.predicted_outcome (EloFallback.predict_international_match hn an) <> "Draw".
Proof.
  intros Hh Ha; unfold predict; cbv zeta; rewrite Hh, Ha; cbn.
  split; [reflexivity | apply EloFallbackFacts.intl_not_draw].
Qed.

Lemma predict_without_data_never_draw_witness :
  let db := Db.mk_database [] [] in
  let model := Some (fun _ _ : Features.features => (2, 1)) in
  DataGate.check_team_has_data db 7 1000 = false /\
  DataGate.check_team_has_data db 8 1000 = false /\
  predict db Scenarios.flat_source model 7 8 1000 "Brazil" "Haiti" =
  International (EloFallback.predict_international_match "Brazil" "Haiti") /\
  EloFallback.predicted_outcome (EloFallback.predict_international_match "Brazil" "Haiti")
  <> "Draw".
Proof.
  intros db model.
  assert (Hh : DataGate.check_team_has_data db 7 1000 = false) by (vm_compute; reflexivity).
  assert (Ha : DataGate.check_team_has_data db 8 1000 = false) by (vm_compute; reflexivity).
  split; [exact Hh | split; [exact Ha |]].
  exact (predict_without_data_never_draw db Scenarios.flat_source model 7 8 1000
           "Brazil" "Haiti" Hh Ha).
Defined.

(** Feature extraction against the match tables always raises, from the
    first form query. *)
Lemma extract_features_rejected (db : Db.database) (src : Features.stat_source)
    (team_id opponent_id match_date : Z) (is_at_venue : bool) :
  extract_features_for_team db src team_id opponent_id match_date is_at_venue =
  inl (Form.GroupingError "m.utc_date").
Proof. reflexivity. Qed.

(** X25. [predict] never answers from the network: when a team passes the
    data gate, feature extraction raises (the form query is rejected) and
    [predict] returns [_fallback_prediction] (a draw, 1.5 - 1.5, with
    confidence 0.5), whether a model is loaded or not; otherwise it
    returns the rating fallback, whose three probabilities lie strictly
    between 0 and 1 and whose confidence lies in [5/14, 20/23). *)
Theorem predict_answers (db : Db.database) (src : Features.stat_source)
    (model : option (Features.features -> Features.features -> Q * Q))
    (home_id away_id match_date : Z) (hn an : string) :
  let r := EloFallback.predict_international_match hn an in
  predict db src model home_id away_id match_date hn an =
  (if negb (DataGate.check_team_has_data db home_id match_date) &&
      negb (DataGate.check_team_has_data db away_id match_date)
   then International r
   else Fallback (fallback_prediction hn an)) /\
  (0 < EloFallback.home_prob r < 1 /\ 0 < EloFallback.draw_prob r < 1 /\
   0 < EloFallback.away_prob r < 1 /\ 5/14 <= EloFallback.confidence r < 20/23)%R /\
  predicted_outcome (fallback_prediction hn an) = "Draw" /\
  confidence_score (fallback_prediction hn an) = 1#2 /\
  team_a_predicted_goals (fallback_prediction hn an) = 3#2 /\
  team_b_predicted_goals (fallback_prediction hn an) = 3#2.
Proof.
  intro r.
  split.
  - unfold predict; cbv zeta.
    destruct (negb _ && negb _); [reflexivity |].
    rewrite extract_features_rejected; reflexivity.
  - destruct (EloFallbackFacts.intl_core hn an) as (_ & H2 & H3 & H4 & _ & _ & H7 & _).
    split; [split; [exact H2 | split; [exact H3 | split; [exact H4 | exact H7]]] |].
    repeat split.
Qed.

End V2PredictExtraProofs.
